(** * ASDAS: Automated System for Determining Atmospheric Stability

    A shallow embedding of [ASDAS.py] and the properties of its
    specification.

    Modelling decisions.
    - A Python float is a [pyfloat]: a finite value, carried as a rational
      (every binary64 double is one), or one of the IEEE specials.  The
      comparisons against the integer thresholds and [round(x, 0)] are exact
      on doubles, so they are computed exactly here; [np.round(x, 1)] is
      computed on the rational and leaves the last-bit error of the double
      out.
    - The MetPy thermodynamics ([mpcalc.*]), the Wyoming archive
      ([WyomingUpperAir.request_data]) and the clock are not part of the
      program: they are an interface ([MetPy]), a state-passing oracle over
      an abstract world, and an argument of [main].
    - A raised exception is a value [Raise e] of the [result] type; a
      [try]/[except] is a [match] on it.
    - A pandas frame is a list of labelled rows, a row a record of cells with
      the access by column name the source uses; a Python [dict] is an
      association list in insertion order. *)

From Stdlib Require Import QArith ZArith Bool String Ascii List Lia Lqa DecimalString.
Import ListNotations.
Local Open Scope string_scope.
Local Open Scope Z_scope.

(** ** Python values *)

Inductive pyfloat : Type :=
| Fin (q : Q)
| PInf
| NInf
| NaN.

Definition Qltb (x y : Q) : bool :=
  (Qnum x * QDen y <? Qnum y * QDen x)%Z.

(** [x > n] and [x < n] for a float [x] and an integer literal [n]:
    every comparison with NaN is false. *)
Definition gt_int (x : pyfloat) (n : Z) : bool :=
  match x with
  | Fin q => Qltb (inject_Z n) q
  | PInf => true
  | NInf => false
  | NaN => false
  end.

Definition lt_int (x : pyfloat) (n : Z) : bool :=
  match x with
  | Fin q => Qltb q (inject_Z n)
  | PInf => false
  | NInf => true
  | NaN => false
  end.

Definition isnan (x : pyfloat) : bool :=
  match x with NaN => true | _ => false end.

(** Round half to even, the rounding of [round] and of [np.round]. *)
Definition round_half_even (q : Q) : Z :=
  let n := Qnum q in
  let d := QDen q in
  let f := n / d in
  let r := n mod d in
  match 2 * r ?= d with
  | Lt => f
  | Gt => f + 1
  | Eq => if Z.even f then f else f + 1
  end.

(** [round(x, 0)] on a float. *)
Definition round0 (x : pyfloat) : pyfloat :=
  match x with
  | Fin q => Fin (inject_Z (round_half_even q))
  | _ => x
  end.

(** [np.round(x, 1)]: scale by ten, round to an integer, scale back. *)
Definition np_round1 (x : pyfloat) : pyfloat :=
  match x with
  | Fin q => Fin (Qmake (round_half_even (q * inject_Z 10)) 10)
  | _ => x
  end.

(** ** Exceptions *)

(** The exception classes the program tells apart or can raise itself.  A
    class stands for its subclasses too; [OtherError] is any exception that
    is none of the named ones (a connection error, say). *)
Inductive exn : Type :=
| HTTPError
| ValueError
| IndexError
| KeyError
| AttributeError
| TypeError
| UnboundLocalError (name : string)
| NameError (name : string)
| OtherError (name : string).

Inductive result (A : Type) : Type :=
| Ok (a : A)
| Raise (e : exn).
Arguments Ok {A} a.
Arguments Raise {A} e.

Definition bind {A B : Type} (r : result A) (k : A -> result B) : result B :=
  match r with
  | Ok a => k a
  | Raise e => Raise e
  end.

Declare Scope result_scope.
Delimit Scope result_scope with result.
Notation "x <- c ;; k" := (bind c (fun x => k))
  (at level 61, c at next level, right associativity) : result_scope.
Notation "' p <- c ;; k" := (bind c (fun x => match x with p => k end))
  (at level 61, p pattern, c at next level, right associativity) : result_scope.

Fixpoint mapM {A B : Type} (f : A -> result B) (l : list A) : result (list B) :=
  match l with
  | [] => Ok []
  | a :: l' =>
      match f a with
      | Ok b => match mapM f l' with
                | Ok bs => Ok (b :: bs)
                | Raise e => Raise e
                end
      | Raise e => Raise e
      end
  end.

(** ** Threshold criteria *)

Definition Stable : string := "Stabil".
Definition WeaklyUnstable : string := "Labil Lemah".
Definition ModeratelyUnstable : string := "Labil Sedang".
Definition StronglyUnstable : string := "Labil Kuat".

Definition index_criteria
  (cape_value k_index_value lifted_index_value showalter_index_value : pyfloat)
  : string :=
  if gt_int cape_value 2500 && gt_int k_index_value 30
     && lt_int lifted_index_value (-5) then
    "Labil Kuat"
  else if gt_int cape_value 1000 && gt_int k_index_value 20
          && lt_int lifted_index_value (-3) then
    "Labil Sedang"
  else if gt_int cape_value 100 && gt_int k_index_value 0
          && lt_int showalter_index_value 0 then
    "Labil Lemah"
  else
    "Stabil".

(** ** Dates *)

Record datetime : Type := mkdatetime {
  year : Z; month : Z; day : Z;
  hour : Z; minute : Z; second : Z; microsecond : Z
}.

(** [dt.replace(hour=h, minute=m, second=s, microsecond=us)] *)
Definition replace_time (dt : datetime) (h m s us : Z) : datetime :=
  mkdatetime (year dt) (month dt) (day dt) h m s us.

Definition is_leap (y : Z) : bool :=
  (y mod 4 =? 0) && (negb (y mod 100 =? 0) || (y mod 400 =? 0)).

Definition days_in_month (y m : Z) : Z :=
  if m =? 2 then (if is_leap y then 29 else 28)
  else if (m =? 4) || (m =? 6) || (m =? 9) || (m =? 11) then 30
  else 31.

Definition next_day (dt : datetime) : datetime :=
  let with_date y m d :=
    mkdatetime y m d (hour dt) (minute dt) (second dt) (microsecond dt) in
  if day dt <? days_in_month (year dt) (month dt) then
    with_date (year dt) (month dt) (day dt + 1)
  else if month dt <? 12 then with_date (year dt) (month dt + 1) 1
  else with_date (year dt + 1) 1 1.

(** [dt + timedelta(hours=h)] for [0 <= h <= 24], which covers the one use
    in [main]. *)
Definition add_hours (dt : datetime) (h : Z) : datetime :=
  let t := hour dt + h in
  let at_hour d x :=
    mkdatetime (year d) (month d) (day d) x (minute d) (second d)
      (microsecond d) in
  if t <? 24 then at_hour dt t else next_day (at_hour dt (t - 24)).

Definition zpad (width : nat) (n : Z) : string :=
  let s := NilZero.string_of_uint (Nat.to_uint (Z.to_nat n)) in
  String.concat "" (repeat "0" (width - String.length s)) ++ s.

(** [str(dt)], as the f-string formats it. *)
Definition str_datetime (dt : datetime) : string :=
  zpad 4 (year dt) ++ "-" ++ zpad 2 (month dt) ++ "-" ++ zpad 2 (day dt)
  ++ " " ++ zpad 2 (hour dt) ++ ":" ++ zpad 2 (minute dt) ++ ":"
  ++ zpad 2 (second dt)
  ++ (if microsecond dt =? 0 then "" else "." ++ zpad 6 (microsecond dt)).

(** ** Dictionaries *)

Definition dict (V : Type) : Type := list (string * V).

(** [d[k] = v]: an existing key keeps its place, a new one goes last. *)
Fixpoint dict_set {V : Type} (d : dict V) (k : string) (v : V) : dict V :=
  match d with
  | [] => [(k, v)]
  | (k', v') :: d' =>
      if String.eqb k' k then (k', v) :: d' else (k', v') :: dict_set d' k v
  end.

Definition dict_keys {V : Type} (d : dict V) : list string := map fst d.
Definition dict_values {V : Type} (d : dict V) : list V := map snd d.

Fixpoint dict_get {V : Type} (d : dict V) (k : string) : option V :=
  match d with
  | [] => None
  | (k', v) :: d' => if String.eqb k' k then Some v else dict_get d' k
  end.

(** ** Soundings and the thermodynamics library *)

(** One row of the frame the archive returns; only the columns the program
    reads. *)
Record level : Type := mkLevel {
  pressure : pyfloat;
  temperature : pyfloat;
  dewpoint : pyfloat;
  station : string;
  time : datetime;
  latitude : pyfloat;
  longitude : pyfloat
}.

Definition Sounding : Type := list level.

(** A quantity with units; the program only ever reads [.magnitude]. *)
Record Quantity : Type := mkQuantity { magnitude : pyfloat }.

(** The functions of [metpy.calc] the program calls, on the magnitudes of
    the unit arrays.  Each may raise. *)
Record MetPy : Type := mkMetPy {
  parcel_profile :
    list pyfloat -> pyfloat -> pyfloat -> result (list pyfloat);
  cape_cin :
    list pyfloat -> list pyfloat -> list pyfloat -> list pyfloat ->
    result (Quantity * Quantity);
  k_index :
    list pyfloat -> list pyfloat -> list pyfloat -> result Quantity;
  lifted_index :
    list pyfloat -> list pyfloat -> list pyfloat -> result Quantity;
  showalter_index :
    list pyfloat -> list pyfloat -> list pyfloat -> result Quantity
}.

(** ** The index frame *)

Inductive cell : Type :=
| CFloat (x : pyfloat)
| CTime (t : datetime)
| CStr (s : string)
| CQuantity (q : Quantity).

Definition get_magnitude (quantity : cell) : result cell :=
  match quantity with
  | CQuantity q => Ok (CFloat (magnitude q))
  | _ => Raise AttributeError
  end.

(** A float read out of a cell for a numeric comparison. *)
Definition as_float (c : cell) : result pyfloat :=
  match c with
  | CFloat x => Ok x
  | _ => Raise TypeError
  end.

Definition isna (c : cell) : bool :=
  match c with
  | CFloat x => isnan x
  | _ => false
  end.

Record row : Type := mkRow {
  Waktu : cell; Lintang : cell; Bujur : cell; CAPE : cell;
  K_Index : cell; Lifted_Index : cell; Showalter_Index : cell
}.

Definition columns : list string :=
  ["Waktu"; "Lintang"; "Bujur"; "CAPE"; "K-Index"; "Lifted Index";
   "Showalter Index"].

(** [r[i]] *)
Definition getitem (r : row) (i : string) : result cell :=
  if String.eqb i "Waktu" then Ok (Waktu r)
  else if String.eqb i "Lintang" then Ok (Lintang r)
  else if String.eqb i "Bujur" then Ok (Bujur r)
  else if String.eqb i "CAPE" then Ok (CAPE r)
  else if String.eqb i "K-Index" then Ok (K_Index r)
  else if String.eqb i "Lifted Index" then Ok (Lifted_Index r)
  else if String.eqb i "Showalter Index" then Ok (Showalter_Index r)
  else Raise KeyError.

(** [r[i] = c] for a column of the frame. *)
Definition setitem (r : row) (i : string) (c : cell) : row :=
  if String.eqb i "Waktu" then
    mkRow c (Lintang r) (Bujur r) (CAPE r) (K_Index r) (Lifted_Index r)
      (Showalter_Index r)
  else if String.eqb i "Lintang" then
    mkRow (Waktu r) c (Bujur r) (CAPE r) (K_Index r) (Lifted_Index r)
      (Showalter_Index r)
  else if String.eqb i "Bujur" then
    mkRow (Waktu r) (Lintang r) c (CAPE r) (K_Index r) (Lifted_Index r)
      (Showalter_Index r)
  else if String.eqb i "CAPE" then
    mkRow (Waktu r) (Lintang r) (Bujur r) c (K_Index r) (Lifted_Index r)
      (Showalter_Index r)
  else if String.eqb i "K-Index" then
    mkRow (Waktu r) (Lintang r) (Bujur r) (CAPE r) c (Lifted_Index r)
      (Showalter_Index r)
  else if String.eqb i "Lifted Index" then
    mkRow (Waktu r) (Lintang r) (Bujur r) (CAPE r) (K_Index r) c
      (Showalter_Index r)
  else if String.eqb i "Showalter Index" then
    mkRow (Waktu r) (Lintang r) (Bujur r) (CAPE r) (K_Index r)
      (Lifted_Index r) c
  else r.

(** The rows of the frame are labelled by the items of
    [station_to_location]: a pair of station code and place name. *)
Definition label : Type := (string * string)%type.
Definition IndexFrame : Type := list (label * row).

Definition nan_row : row :=
  let na := CFloat NaN in mkRow na na na na na na na.

(** [pd.DataFrame(columns=..., index=station_to_location.items())] *)
Definition new_frame (station_to_location : dict string) : IndexFrame :=
  map (fun item => (item, nan_row)) station_to_location.

Definition has_code (key : string) (df : IndexFrame) : bool :=
  existsb (fun lr => String.eqb (fst (fst lr)) key) df.

(** [df.loc[key] = r], [key] a station code: every row whose label starts
    with [key] is overwritten.  In [main] every key is a code of the index.
    A key outside it makes pandas enlarge the frame by one row; the model
    labels that row with the bare key. *)
Definition loc_set (df : IndexFrame) (key : string) (r : row) : IndexFrame :=
  if has_code key df then
    map (fun lr => if String.eqb (fst (fst lr)) key then (fst lr, r) else lr) df
  else (df ++ [((key, ""), r)])%list.

(** The frame with the category column added. *)
Record krow : Type := mkKRow { values : row; Kategori : string }.
Definition StabilityFrame : Type := list (label * krow).

Definition kgetitem (r : krow) (i : string) : result cell :=
  if String.eqb i "Kategori" then Ok (CStr (Kategori r))
  else getitem (values r) i.

(** ** Stability computation *)

(** [pd.concat(frames)]: no frame at all is a [ValueError]. *)
Definition pd_concat (frames : list Sounding) : result Sounding :=
  match frames with
  | [] => Raise ValueError
  | _ => Ok (List.concat frames)
  end.

(** [df.drop_duplicates(['station'])]: the first row of each station. *)
Fixpoint drop_duplicates_from (seen : list string) (df : Sounding) : Sounding :=
  match df with
  | [] => []
  | r :: df' =>
      if existsb (String.eqb (station r)) seen then drop_duplicates_from seen df'
      else r :: drop_duplicates_from (station r :: seen) df'
  end.

Definition drop_duplicates (df : Sounding) : Sounding :=
  drop_duplicates_from [] df.

(** [df[df['station'] == key]] *)
Definition where_station (df : Sounding) (key : string) : Sounding :=
  filter (fun r => String.eqb (station r) key) df.

(** [a[0]] and [column.values[0]] *)
Definition item0 {A : Type} (a : list A) : result A :=
  match a with
  | [] => Raise IndexError
  | x :: _ => Ok x
  end.

(** [df.dropna(subset=['Lintang', 'Bujur'])] *)
Definition dropna (df : StabilityFrame) : StabilityFrame :=
  filter (fun lr => negb (isna (Lintang (values (snd lr))))
                    && negb (isna (Bujur (values (snd lr))))) df.

(** [df[i] = col] *)
Definition set_column (df : IndexFrame) (i : string) (col : list cell)
  : IndexFrame :=
  map (fun p => (fst (fst p), setitem (snd (fst p)) i (snd p))) (combine df col).

(** The second loop of [calculate_stability]: each column is replaced by
    its magnitudes, unless taking them raises [AttributeError]. *)
Fixpoint magnitude_loop (cols : list string) (dfindex dfindexnew : IndexFrame)
  : result IndexFrame :=
  match cols with
  | [] => Ok dfindexnew
  | i :: cols' =>
      match (col <- mapM (fun lr => getitem (snd lr) i) dfindex;;
             mapM get_magnitude col)%result with
      | Ok col => magnitude_loop cols' dfindex (set_column dfindexnew i col)
      | Raise AttributeError => magnitude_loop cols' dfindex dfindexnew
      | Raise e => Raise e
      end
  end.

(** The [lambda row: index_criteria(row['CAPE'], ...)] of the category
    column. *)
Definition row_kategori (r : row) : result string :=
  (cape <- bind (getitem r "CAPE") as_float;;
   kindex <- bind (getitem r "K-Index") as_float;;
   lift_index <- bind (getitem r "Lifted Index") as_float;;
   showalter <- bind (getitem r "Showalter Index") as_float;;
   Ok (index_criteria cape kindex lift_index showalter))%result.

Definition add_kategori (df : IndexFrame) : result StabilityFrame :=
  mapM (fun lr => (k <- row_kategori (snd lr);;
                   Ok (fst lr, mkKRow (snd lr) k))%result) df.

Section Stability.

Variable lib : MetPy.

(** The body of the first loop of [calculate_stability] for one item of
    [data_per_station]: the seven values assigned to [dfindex.loc[key]].
    The units attached by [pandas_dataframe_to_unit_arrays] do not change
    a magnitude, so [da] is [value].  The library returns the Lifted and
    Showalter Index as arrays of one element; the cell here holds that
    element. *)
Definition station_values (dfstationdata : Sounding) (key : string)
  (value : Sounding) : result row :=
  (let da := value in
   t0 <- item0 (map temperature da);;
   td0 <- item0 (map dewpoint da);;
   profile <- parcel_profile lib (map pressure da) t0 td0;;
   time <- item0 (map time (where_station dfstationdata key));;
   lat <- item0 (map latitude (where_station dfstationdata key));;
   lon <- item0 (map longitude (where_station dfstationdata key));;
   ' (cape, cin) <- cape_cin lib (map pressure da) (map temperature da)
                      (map dewpoint da) profile;;
   let cape := round0 (magnitude cape) in
   kindex <- k_index lib (map pressure da) (map temperature da)
               (map dewpoint da);;
   let kindex := round0 (magnitude kindex) in
   lift_index <- lifted_index lib (map pressure da) (map temperature da)
                   profile;;
   let lift_index := np_round1 (magnitude lift_index) in
   showalter <- showalter_index lib (map pressure da) (map temperature da)
                  (map dewpoint da);;
   let showalter := np_round1 (magnitude showalter) in
   Ok (mkRow (CTime time) (CFloat lat) (CFloat lon) (CFloat cape)
         (CFloat kindex) (CFloat lift_index) (CFloat showalter)))%result.

Fixpoint stability_loop (dfstationdata : Sounding)
  (items : dict Sounding) (dfindex : IndexFrame) : result IndexFrame :=
  match items with
  | [] => Ok dfindex
  | (key, value) :: items' =>
      (r <- station_values dfstationdata key value;;
       stability_loop dfstationdata items' (loc_set dfindex key r))%result
  end.

Definition calculate_stability (data_per_station : dict Sounding)
  (station_to_location : dict string) : result StabilityFrame :=
  (all <- pd_concat (dict_values data_per_station);;
   let dfstationdata := drop_duplicates all in
   let dfindex := new_frame station_to_location in
   dfindex <- stability_loop dfstationdata data_per_station dfindex;;
   let dfindexnew := dfindex in
   dfindexnew <- magnitude_loop columns dfindex dfindexnew;;
   dfindexnew <- add_kategori dfindexnew;;
   Ok (dropna dfindexnew))%result.

End Stability.

(** ** The map *)

Definition fl_add (x y : pyfloat) : pyfloat :=
  match x, y with
  | Fin a, Fin b => Fin (a + b)
  | NaN, _ | _, NaN => NaN
  | PInf, NInf | NInf, PInf => NaN
  | PInf, _ | _, PInf => PInf
  | NInf, _ | _, NInf => NInf
  end.

(** [column.mean()]: missing values are skipped, no value gives NaN. *)
Definition mean (col : list cell) : result pyfloat :=
  (xs <- mapM as_float col;;
   let xs := filter (fun x => negb (isnan x)) xs in
   match xs with
   | [] => Ok NaN
   | _ =>
       Ok match fold_left fl_add xs (Fin 0) with
          | Fin s => Fin (s / inject_Z (Z.of_nat (List.length xs)))
          | x => x
          end
   end)%result.

(** The fields a popup text is formatted from. *)
Record Popup : Type := mkPopup {
  popup_name : string; popup_kategori : cell;
  popup_cape : cell; popup_ki : cell; popup_li : cell; popup_si : cell
}.

Record CircleMarker : Type := mkCircleMarker {
  marker_location : cell * cell;
  radius : Z;
  color : string;
  fill : bool;
  fill_color : string;
  popup : Popup
}.

Record FoliumMap : Type := mkFoliumMap {
  location : pyfloat * pyfloat;
  zoom_start : Z;
  markers : list CircleMarker;
  legend : list (string * string)
}.

(** The legend of [add_legend]: a colour square and its category. *)
Definition add_legend (m : FoliumMap) : FoliumMap :=
  mkFoliumMap (location m) (zoom_start m) (markers m)
    [("green", "Stabil"); ("yellow", "Labil Lemah");
     ("orange", "Labil Sedang"); ("red", "Labil Kuat")].

(** The marker loop of [mapplot].  [color] is the Python variable of that
    name: it keeps its value from one iteration to the next and is unbound
    until a category first matches. *)
Fixpoint marker_loop (rows : StabilityFrame) (color : option string)
  (m : FoliumMap) : result FoliumMap :=
  match rows with
  | [] => Ok m
  | (name, r) :: rows' =>
      (kategori <- kgetitem r "Kategori";;
       let color :=
         match kategori with
         | CStr k =>
             if String.eqb k "Stabil" then Some "green"
             else if String.eqb k "Labil Lemah" then Some "yellow"
             else if String.eqb k "Labil Sedang" then Some "orange"
             else if String.eqb k "Labil Kuat" then Some "red"
             else color
         | _ => color
         end in
       lintang <- kgetitem r "Lintang";;
       bujur <- kgetitem r "Bujur";;
       c <- match color with
            | Some c => Ok c
            | None => Raise (UnboundLocalError "color")
            end;;
       cape <- kgetitem r "CAPE";;
       ki <- kgetitem r "K-Index";;
       li <- kgetitem r "Lifted Index";;
       si <- kgetitem r "Showalter Index";;
       let category_popup := mkPopup (snd name) kategori cape ki li si in
       let circle_marker :=
         mkCircleMarker (lintang, bujur) 10 c true c category_popup in
       marker_loop rows' color
         (mkFoliumMap (location m) (zoom_start m)
            (markers m ++ [circle_marker])%list (legend m)))%result
  end.

Definition mapplot (df : StabilityFrame) : result FoliumMap :=
  (let df := dropna df in
   lat <- mean (map (fun lr => Lintang (values (snd lr))) df);;
   lon <- mean (map (fun lr => Bujur (values (snd lr))) df);;
   let m := mkFoliumMap (lat, lon) 5 [] [] in
   m <- marker_loop df None m;;
   Ok (add_legend m))%result.

(** ** Retrieval and the Streamlit script *)

(** What a run does to the outside: text and tables written to the page,
    and the requests sent to the archive. *)
Inductive event : Type :=
| EvTitle (s : string)
| EvWrite (s : string)
| EvDataframe (df : StabilityFrame)
| EvRequest (date : datetime) (stn : string).

Definition is_request (e : event) : bool :=
  match e with EvRequest _ _ => true | _ => false end.

Section Script.

(** The state of the archive server and of the network. *)
Context {World : Type}.

(** [WyomingUpperAir.request_data(date, station)] *)
Variable request_data : datetime -> string -> World -> result Sounding * World.

Variable lib : MetPy.

(** A computation that reads and changes the world, emits events, and
    returns or raises. *)
Definition M (A : Type) : Type := World -> result A * World * list event.

Definition ret {A : Type} (a : A) : M A := fun w => (Ok a, w, []).

Definition raise {A : Type} (e : exn) : M A := fun w => (Raise e, w, []).

Definition lift {A : Type} (r : result A) : M A := fun w => (r, w, []).

Definition emit (e : event) : M unit := fun w => (Ok tt, w, [e]).

Definition mbind {A B : Type} (m : M A) (k : A -> M B) : M B :=
  fun w =>
    match m w with
    | (Ok a, w1, t1) =>
        match k a w1 with
        | (r, w2, t2) => (r, w2, (t1 ++ t2)%list)
        end
    | (Raise e, w1, t1) => (Raise e, w1, t1)
    end.

Notation "x <- c ;; k" := (mbind c (fun x => k))
  (at level 61, c at next level, right associativity).
Notation "c ;;; k" := (mbind c (fun _ => k))
  (at level 61, right associativity).

Definition st_title (s : string) : M unit := emit (EvTitle s).
Definition st_write (s : string) : M unit := emit (EvWrite s).
Definition st_dataframe (df : StabilityFrame) : M unit := emit (EvDataframe df).

(** The call of the archive, recorded in the trace. *)
Definition request (date : datetime) (stn : string) : M Sounding :=
  fun w =>
    match request_data date stn w with
    | (r, w') => (r, w', [EvRequest date stn])
    end.

(** [try: ... except HTTPError: ... except ValueError: ...] around [m]:
    any other exception goes on. *)
Definition try_request {A : Type} (m : M A) (on_http on_value : M A) : M A :=
  fun w =>
    match m w with
    | (Ok a, w1, t1) => (Ok a, w1, t1)
    | (Raise HTTPError, w1, t1) =>
        match on_http w1 with (r, w2, t2) => (r, w2, (t1 ++ t2)%list) end
    | (Raise ValueError, w1, t1) =>
        match on_value w1 with (r, w2, t2) => (r, w2, (t1 ++ t2)%list) end
    | (Raise e, w1, t1) => (Raise e, w1, t1)
    end.

Fixpoint retrieve_loop (date : datetime) (stations : list string)
  (data_per_station : dict Sounding) : M (dict Sounding) :=
  match stations with
  | [] => ret data_per_station
  | stn :: stations' =>
      data_per_station <-
        try_request
          (dfori <- request date stn;;
           ret (dict_set data_per_station stn dfori))
          (st_write "Oops, it looks like the server is busy. Hold on. Retrying to retrieve data ...";;;
           ret data_per_station)
          (st_write ("No data available for " ++ str_datetime date
                     ++ ", for station " ++ stn);;;
           ret data_per_station);;
      retrieve_loop date stations' data_per_station
  end.

Definition retrieve_data_from_wyoming (date : datetime)
  (stations : list string) : M (dict Sounding) :=
  retrieve_loop date stations [].

Definition stations : list string :=
  ["WITT"; "WIMM"; "WIMG"; "WIBB"; "WION"; "WIKK"; "WIPL"; "WIII"; "WIIL";
   "WRSJ"; "WRRR"; "WRLR"; "WRBB"; "WRLL"; "WIOO"; "WRBI"; "WAAA"; "WAML";
   "WAMM"; "WRKC"; "WRKK"; "WAMT"; "WAPP"; "WAPI"; "WABB"; "WASS"; "WAJJ";
   "WAJW"; "WAKK"].

Definition station_to_location : dict string :=
  [("WITT", "Aceh"); ("WIMM", "Medan"); ("WIMG", "Padang");
   ("WIBB", "Pekanbaru"); ("WION", "Ranai"); ("WIKK", "Pangkal Pinang");
   ("WIPL", "Bengkulu"); ("WIII", "Jakarta"); ("WIIL", "Cilacap");
   ("WRSJ", "Surabaya"); ("WRRR", "Denpasar"); ("WRLR", "Tarakan");
   ("WRBB", "Banjarmasin"); ("WRLL", "Balikpapan"); ("WIOO", "Pontianak");
   ("WRBI", "Pangkalan Bun"); ("WAAA", "Makassar"); ("WAML", "Palu");
   ("WAMM", "Manado"); ("WRKC", "Maumere"); ("WRKK", "Kupang");
   ("WAMT", "Ternate"); ("WAPP", "Ambon"); ("WAPI", "Saumlaki");
   ("WABB", "Biak"); ("WASS", "Sorong"); ("WAJJ", "Jayapura");
   ("WAJW", "Wamena"); ("WAKK", "Merauke")].

(** The date [main] asks the archive for: [datetime(2023, 10, 16, 00)]. *)
Definition request_date : datetime := mkdatetime 2023 10 16 0 0 0 0.

(** One run of the script.  [now] is what [datetime.utcnow()] returns,
    [on] and [dmap] the two checkboxes.  [df] is a local variable of
    [main]: bound only in the first branch, [None] stands for unbound.
    [folium_static] is a name the file never imports or defines. *)
Definition main (now : datetime) (on dmap : bool) : M unit :=
  st_title "Automated System for Determining Atmospheric Stability (ASDAS)";;;
  let current_datetime_utc := now in
  let last_data_time_utc := replace_time current_datetime_utc 0 0 0 0 in
  let next_data_time_utc :=
    if hour current_datetime_utc >=? 12 then add_hours last_data_time_utc 12
    else last_data_time_utc in
  let date := request_date in
  df <- (if on then
           st_write "Retrieving Latest Data from Wyoming ...";;;
           data_per_station <- retrieve_data_from_wyoming date stations;;
           st_write "Finish retrieving data from Wyoming";;;
           st_write "Calculating Atmospheric Stability Index";;;
           df <- lift (calculate_stability lib data_per_station
                         station_to_location);;
           st_write "Displaying Calculated Atmospheric Stability Index";;;
           st_dataframe df;;;
           ret (Some df)
         else ret None);;
  if dmap then
    st_write "Displaying maps";;;
    df <- match df with
          | Some df => ret df
          | None => raise (UnboundLocalError "df")
          end;;
    mapp <- lift (mapplot df);;
    raise (NameError "folium_static")
  else ret tt.

End Script.

(** ** The level indices of the specification *)

Definition fl_neg (x : pyfloat) : pyfloat :=
  match x with
  | Fin q => Fin (- q)
  | PInf => NInf
  | NInf => PInf
  | NaN => NaN
  end.

Definition fl_sub (x y : pyfloat) : pyfloat := fl_add x (fl_neg y).

Definition ge_level (x : pyfloat) (p : Q) : bool :=
  match x with
  | Fin q => Qle_bool p q
  | PInf => true
  | _ => false
  end.

Definition le_level (x : pyfloat) (p : Q) : bool :=
  match x with
  | Fin q => Qle_bool q p
  | NInf => true
  | _ => false
  end.

(** The pressure range of a sounding spans the level [p]: some level lies at
    or below it and some at or above it. *)
Definition spans_level (p : Q) (pressure : list pyfloat) : bool :=
  existsb (fun x => ge_level x p) pressure
  && existsb (fun x => le_level x p) pressure.

Definition lerp (p p1 p2 : Q) (v1 v2 : pyfloat) : pyfloat :=
  match v1, v2 with
  | Fin a, Fin b => Fin (a + (b - a) * ((p - p1) / (p2 - p1)))
  | _, _ => NaN
  end.

(** Modelled from the spec: the value of a column at a standard pressure
    level, which the program leaves to [metpy.calc] (not under src/): the
    exact match if the level is present, the linear interpolation between
    the two bracketing levels otherwise, and missing (NaN) if no two
    consecutive levels bracket it. *)
Fixpoint interp_at (p : Q) (pressure vals : list pyfloat) : pyfloat :=
  match pressure, vals with
  | Fin p1 :: ps, v1 :: vs =>
      if Qeq_bool p1 p then v1
      else
        match ps, vs with
        | Fin p2 :: _, v2 :: _ =>
            if Qltb p2 p && Qltb p p1 then lerp p p1 p2 v1 v2
            else interp_at p ps vs
        | _, _ => interp_at p ps vs
        end
  | _ :: ps, _ :: vs => interp_at p ps vs
  | _, _ => NaN
  end.

(** Modelled from the spec: [mpcalc.k_index] (not under src/),
    [(T850 - T500) + Td850 - (T700 - Td700)] on the interpolated values. *)
Definition k_index_spec (pressure temperature dewpoint : list pyfloat)
  : pyfloat :=
  let T850 := interp_at 850 pressure temperature in
  let T700 := interp_at 700 pressure temperature in
  let T500 := interp_at 500 pressure temperature in
  let Td850 := interp_at 850 pressure dewpoint in
  let Td700 := interp_at 700 pressure dewpoint in
  fl_sub (fl_add (fl_sub T850 T500) Td850) (fl_sub T700 Td700).

(** Modelled from the spec: [mpcalc.lifted_index] (not under src/),
    [Tenv@500 - Tparcel@500] for the parcel lifted from the surface. *)
Definition lifted_index_spec (pressure temperature profile : list pyfloat)
  : pyfloat :=
  fl_sub (interp_at 500 pressure temperature) (interp_at 500 pressure profile).

(** The parcel theory itself (the adiabats, the buoyancy integral) is not
    modelled: it is a parameter of the library of the specification. *)
Record Thermo : Type := mkThermo {
  th_parcel_profile :
    list pyfloat -> pyfloat -> pyfloat -> result (list pyfloat);
  th_cape_cin :
    list pyfloat -> list pyfloat -> list pyfloat -> list pyfloat ->
    result (Quantity * Quantity);
  (** temperature at 500 hPa of the parcel lifted from 850 hPa *)
  th_lift_from_850 : pyfloat -> pyfloat -> pyfloat
}.

(** Modelled from the spec: [mpcalc.showalter_index] (not under src/),
    [Tenv@500 - Tparcel_from_850@500]. *)
Definition showalter_index_spec (th : Thermo)
  (pressure temperature dewpoint : list pyfloat) : pyfloat :=
  fl_sub (interp_at 500 pressure temperature)
    (th_lift_from_850 th (interp_at 850 pressure temperature)
       (interp_at 850 pressure dewpoint)).

(** Modelled from the spec: the library [metpy.calc] (not under src/) with
    the level indices of the LevelIndexCalculator. *)
Definition spec_metpy (th : Thermo) : MetPy :=
  mkMetPy (th_parcel_profile th) (th_cape_cin th)
    (fun P T Td => Ok (mkQuantity (k_index_spec P T Td)))
    (fun P T prof => Ok (mkQuantity (lifted_index_spec P T prof)))
    (fun P T Td => Ok (mkQuantity (showalter_index_spec th P T Td))).

(** ** Test doubles and sample soundings *)

Definition fl_scale (x : pyfloat) (k : Q) : pyfloat :=
  match x with
  | Fin q => Fin (q * k)
  | _ => NaN
  end.

(** A stand-in for the parcel theory: the parcel cools by 0.084 K per hPa
    from the first level, the energies are fixed, and the parcel lifted
    from 850 hPa arrives at 500 hPa 30 K colder.  It takes any list of
    pressures; the library does not (see [strict_thermo]). *)
Definition test_thermo : Thermo :=
  mkThermo
    (fun P t0 td0 =>
       Ok (map (fun p => fl_sub t0 (fl_scale (fl_sub (hd NaN P) p) (21 # 250))) P))
    (fun P T Td prof => Ok (mkQuantity (Fin 3000), mkQuantity (Fin (-20))))
    (fun t850 td850 => fl_sub t850 (Fin 30)).

Fixpoint decreasing (pressure : list pyfloat) : bool :=
  match pressure with
  | Fin p1 :: ((Fin p2 :: _) as ps) => Qltb p2 p1 && decreasing ps
  | [_] | [] => true
  | _ => false
  end.

(** The same stand-in, refusing a sounding whose pressure does not
    decrease, as [mpcalc.parcel_profile] does with a subclass of
    [ValueError]. *)
Definition strict_thermo : Thermo :=
  mkThermo
    (fun P t0 td0 =>
       if decreasing P then th_parcel_profile test_thermo P t0 td0
       else Raise ValueError)
    (th_cape_cin test_thermo) (th_lift_from_850 test_thermo).

Definition sounding_of (code : string) (lat lon : pyfloat)
  (levels : list (Q * Q * Q)) : Sounding :=
  map (fun l => mkLevel (Fin (fst (fst l))) (Fin (snd (fst l))) (Fin (snd l))
                  code (mkdatetime 2023 10 16 0 0 0 0) lat lon) levels.

(** The profile of the specification's example. *)
Definition example_levels : list (Q * Q * Q) :=
  [(1000, 28, 24); (850, 15, 10); (700, 5, -5); (500, -20, -30)]%Q.

Definition jakarta : Sounding :=
  sounding_of "WIII" (Fin (-61 # 10)) (Fin (1067 # 10)) example_levels.

(** A sounding that stops at 700 hPa. *)
Definition surabaya_low : Sounding :=
  sounding_of "WRSJ" (Fin (-74 # 10)) (Fin (1128 # 10))
    [(1000, 28, 24); (850, 15, 10); (700, 5, -5)]%Q.

(** A sounding whose pressure goes up again. *)
Definition padang_unordered : Sounding :=
  sounding_of "WIMG" (Fin (-9 # 10)) (Fin (1003 # 10))
    [(1000, 28, 24); (700, 5, -5); (850, 15, 10); (500, -20, -30)]%Q.

(** A sounding without geolocation. *)
Definition aceh_unlocated : Sounding :=
  sounding_of "WITT" NaN NaN example_levels.

(** An archive that counts the requests it has served: Jakarta and Aceh
    have data, Medan's server is busy, every other station has none. *)
Definition test_archive (date : datetime) (stn : string) (served : nat)
  : result Sounding * nat :=
  (if String.eqb stn "WIII" then Ok jakarta
   else if String.eqb stn "WITT" then Ok aceh_unlocated
   else if String.eqb stn "WIMM" then Raise HTTPError
   else Raise ValueError,
   S served).

(** The answers of the archive when each station of the list is asked once,
    in order. *)
Fixpoint answers {World : Type}
  (request_data : datetime -> string -> World -> result Sounding * World)
  (date : datetime) (stations : list string) (w : World)
  : list (string * result Sounding) :=
  match stations with
  | [] => []
  | stn :: stations' =>
      match request_data date stn w with
      | (r, w') => (stn, r) :: answers request_data date stations' w'
      end
  end.

(** An answer the retrieval loop handles: data, or one of the two caught
    exceptions. *)
Definition handled (r : result Sounding) : bool :=
  match r with
  | Ok _ | Raise HTTPError | Raise ValueError => true
  | Raise _ => false
  end.

(** ** Shapes of rows *)

(** The rows [calculate_stability] builds: the all-missing row a station
    starts with, or the seven values computed for it. *)
Inductive computed_row : row -> Prop :=
| computed_nan : computed_row nan_row
| computed_values (t : datetime) (lat lon cape kindex lift_index showalter : pyfloat) :
    computed_row
      (mkRow (CTime t) (CFloat lat) (CFloat lon) (CFloat cape) (CFloat kindex)
         (CFloat lift_index) (CFloat showalter)).

(** [dfstationdata]: the first row of each station code in the
    concatenation of all soundings. *)
Definition station_data (data_per_station : dict Sounding) : Sounding :=
  drop_duplicates (List.concat (dict_values data_per_station)).

(** The latitude and longitude [calculate_stability] reads for a station. *)
Definition station_latitude (data_per_station : dict Sounding) (key : string)
  : result pyfloat :=
  item0 (map latitude (where_station (station_data data_per_station) key)).

Definition station_longitude (data_per_station : dict Sounding) (key : string)
  : result pyfloat :=
  item0 (map longitude (where_station (station_data data_per_station) key)).




(** Every request of a trace asks for the given date. *)
Definition requests_at (date : datetime) (t : list event) : Prop :=
  Forall (fun e => match e with
                   | EvRequest d _ => d = date
                   | _ => True
                   end) t.

(** The library of the specification over the stand-in parcel theory, and
    the one that refuses unordered soundings. *)
Definition test_lib : MetPy := spec_metpy test_thermo.
Definition strict_lib : MetPy := spec_metpy strict_thermo.

(** An archive with Jakarta's sounding and the unordered one of Padang. *)
Definition unordered_archive (date : datetime) (stn : string) (served : nat)
  : result Sounding * nat :=
  (if String.eqb stn "WIII" then Ok jakarta
   else if String.eqb stn "WIMG" then Ok padang_unordered
   else Raise ValueError,
   S served).

(** An archive that cannot be reached at all. *)
Definition offline_archive (date : datetime) (stn : string) (served : nat)
  : result Sounding * nat :=
  (Raise (OtherError "ConnectionError"), S served).

Definition is_dataframe (e : event) : bool :=
  match e with EvDataframe _ => true | _ => false end.

(** The mappings of the sample runs. *)
Definition unordered_data : dict Sounding :=
  [("WIMG", padang_unordered); ("WIII", jakarta)].

Definition located_data : dict Sounding :=
  [("WIII", jakarta); ("WITT", aceh_unlocated)].

(** ** Further notions for the properties *)

(** The categories in the order of the thresholds. *)
Definition rank (kategori : string) : nat :=
  if String.eqb kategori "Labil Kuat" then 3
  else if String.eqb kategori "Labil Sedang" then 2
  else if String.eqb kategori "Labil Lemah" then 1
  else 0.

Definition is_quantity (c : cell) : bool :=
  match c with CQuantity _ => true | _ => false end.

(** The cell [get_magnitude] returns, a cell without [.magnitude] kept. *)
Definition magnitude_of (c : cell) : cell :=
  match c with
  | CQuantity q => CFloat (magnitude q)
  | _ => c
  end.

(** The cell of a row in a column of the frame. *)
Definition cell_of (r : row) (i : string) : cell :=
  match getitem r i with
  | Ok c => c
  | Raise _ => CFloat NaN
  end.

(** Every cell of the column is a quantity. *)
Definition column_is_quantities (i : string) (df : IndexFrame) : bool :=
  forallb (fun lr => is_quantity (cell_of (snd lr) i)) df.

(** What the magnitude loop does to one row for one column: the cell of the
    original row, stripped of its unit, if the whole column of the original
    frame is made of quantities; nothing otherwise. *)
Definition strip_column (df : IndexFrame) (orig acc : row) (i : string) : row :=
  if column_is_quantities i df
  then setitem acc i (magnitude_of (cell_of orig i))
  else acc.

(** A frame of two stations whose CAPE is a quantity in both rows, the
    K-Index in the first row only. *)
Definition mixed_frame : IndexFrame :=
  let q := CQuantity (mkQuantity (Fin 3000)) in
  let na := CFloat NaN in
  [(("WIII", "Jakarta"), mkRow na na na q q na na);
   (("WIMM", "Medan"), mkRow na na na q na na na)].

(** A sounding whose rows carry no station identifier, as the archive
    returns for a station it has no name for. *)
Definition jakarta_unnamed : Sounding :=
  sounding_of "" (Fin (-61 # 10)) (Fin (1067 # 10)) example_levels.

(** The mapping and the trace a list of handled answers leads to, read as
    a fold over the answers. *)
Definition mapping_step (d : dict Sounding) (a : string * result Sounding)
  : dict Sounding :=
  match snd a with
  | Ok dfori => dict_set d (fst a) dfori
  | Raise _ => d
  end.

Definition mapping_of (l : list (string * result Sounding)) : dict Sounding :=
  fold_left mapping_step l [].

Definition events_of (date : datetime) (a : string * result Sounding)
  : list event :=
  EvRequest date (fst a)
  :: match snd a with
     | Ok _ => []
     | Raise HTTPError =>
         [EvWrite "Oops, it looks like the server is busy. Hold on. Retrying to retrieve data ..."]
     | Raise _ =>
         [EvWrite ("No data available for " ++ str_datetime date
                   ++ ", for station " ++ fst a)]
     end.

(** The fetched soundings, in the order of the answers. *)
Definition fetched (l : list (string * result Sounding)) : dict Sounding :=
  flat_map (fun a => match snd a with
                     | Ok dfori => [(fst a, dfori)]
                     | Raise _ => []
                     end) l.

(** An archive that has no data for any station. *)
Definition empty_archive (date : datetime) (stn : string) (served : nat)
  : result Sounding * nat :=
  (Raise ValueError, S served).

(** The legend every map gets. *)
Definition legend_entries : list (string * string) :=
  legend (add_legend (mkFoliumMap (NaN, NaN) 5 [] [])).

(** A marker drawn for a row: at the row's position, filled with its own
    colour, that colour being the legend's for the row's category, and with
    a popup made of the place name, the category and the four indices. *)
Definition marker_matches (lr : label * krow) (mk : CircleMarker) : Prop :=
  marker_location mk
  = (Lintang (values (snd lr)), Bujur (values (snd lr)))
  /\ radius mk = 10
  /\ fill mk = true
  /\ fill_color mk = color mk
  /\ In (color mk, Kategori (snd lr)) legend_entries
  /\ popup mk
     = mkPopup (snd (fst lr)) (CStr (Kategori (snd lr)))
         (CAPE (values (snd lr))) (K_Index (values (snd lr)))
         (Lifted_Index (values (snd lr))) (Showalter_Index (values (snd lr))).

(** A frame whose second row has a category the map does not know. *)
Definition odd_frame : StabilityFrame :=
  [(("WIII", "Jakarta"), mkKRow nan_row "Labil Kuat");
   (("WIMM", "Medan"), mkKRow nan_row "Netral")].

(** * Properties *)

Local Open Scope list_scope.

(** ** Comparisons *)

Lemma Qltb_lt (x y : Q) : Qltb x y = true <-> (x < y)%Q.
Proof. unfold Qltb, Qlt. apply Z.ltb_lt. Qed.

Lemma tier_iff (c k i : Q) (a b d : Z) :
  gt_int (Fin c) a && gt_int (Fin k) b && lt_int (Fin i) d = true
  <-> (inject_Z a < c /\ inject_Z b < k /\ i < inject_Z d)%Q.
Proof.
  cbn [gt_int lt_int]. rewrite !andb_true_iff, !Qltb_lt. tauto.
Qed.

Lemma tier_false_iff (c k i : Q) (a b d : Z) :
  gt_int (Fin c) a && gt_int (Fin k) b && lt_int (Fin i) d = false
  <-> ~ (inject_Z a < c /\ inject_Z b < k /\ i < inject_Z d)%Q.
Proof.
  rewrite <- tier_iff. destruct (_ && _ && _); split; intro H;
    try discriminate; try reflexivity; exfalso; apply H; reflexivity.
Qed.

(** C1. On every tuple of finite values the classifier returns the category
    of the ordered chain of strict comparisons: strongly unstable exactly
    when the first tier holds, moderately unstable exactly when it does not
    and the second holds, weakly unstable exactly when neither does and the
    third holds, stable exactly when none holds.  At the boundary
    cape = 2500, K-Index = 30, Lifted Index = -5 the first tier does not
    hold and the result is the second tier's, whatever the Showalter index
    (finite or not). *)
Theorem index_criteria_chain :
  forall c k l s : Q,
    let r := index_criteria (Fin c) (Fin k) (Fin l) (Fin s) in
    let tier1 := (2500 < c /\ 30 < k /\ l < -5)%Q in
    let tier2 := (1000 < c /\ 20 < k /\ l < -3)%Q in
    let tier3 := (100 < c /\ 0 < k /\ s < 0)%Q in
    (r = StronglyUnstable <-> tier1)
    /\ (r = ModeratelyUnstable <-> ~ tier1 /\ tier2)
    /\ (r = WeaklyUnstable <-> ~ tier1 /\ ~ tier2 /\ tier3)
    /\ (r = Stable <-> ~ tier1 /\ ~ tier2 /\ ~ tier3)
    /\ (forall x : pyfloat,
          index_criteria (Fin 2500) (Fin 30) (Fin (-5)) x
          = ModeratelyUnstable).
Proof.
  intros c k l s r tier1 tier2 tier3.
  assert (E1 := tier_iff c k l 2500 30 (-5)).
  assert (E2 := tier_iff c k l 1000 20 (-3)).
  assert (E3 := tier_iff c k s 100 0 0).
  assert (F1 := tier_false_iff c k l 2500 30 (-5)).
  assert (F2 := tier_false_iff c k l 1000 20 (-3)).
  assert (F3 := tier_false_iff c k s 100 0 0).
  change (inject_Z 2500 < c /\ inject_Z 30 < k /\ l < inject_Z (-5))%Q
    with tier1 in E1, F1.
  change (inject_Z 1000 < c /\ inject_Z 20 < k /\ l < inject_Z (-3))%Q
    with tier2 in E2, F2.
  change (inject_Z 100 < c /\ inject_Z 0 < k /\ s < inject_Z 0)%Q
    with tier3 in E3, F3.
  unfold StronglyUnstable, ModeratelyUnstable, WeaklyUnstable, Stable.
  subst r. unfold index_criteria.
  clearbody tier1 tier2 tier3.
  destruct (gt_int (Fin c) 2500 && gt_int (Fin k) 30 && lt_int (Fin l) (-5));
    [ assert (T1 : tier1) by (apply E1; reflexivity)
    | assert (T1 : ~ tier1) by (apply F1; reflexivity);
      destruct (gt_int (Fin c) 1000 && gt_int (Fin k) 20 && lt_int (Fin l) (-3));
      [ assert (T2 : tier2) by (apply E2; reflexivity)
      | assert (T2 : ~ tier2) by (apply F2; reflexivity);
        destruct (gt_int (Fin c) 100 && gt_int (Fin k) 0 && lt_int (Fin s) 0);
        [ assert (T3 : tier3) by (apply E3; reflexivity)
        | assert (T3 : ~ tier3) by (apply F3; reflexivity) ] ] ];
    clear E1 E2 E3 F1 F2 F3;
    (repeat split; try discriminate; try tauto; try (intros; reflexivity)).
Qed.

(** ** The error monad *)

Lemma bind_ok {A B : Type} (r : result A) (k : A -> result B) (b : B) :
  bind r k = Ok b -> exists a, r = Ok a /\ k a = Ok b.
Proof. destruct r as [a|e]; simpl; intro H; [eauto | discriminate]. Qed.

Lemma bind_ret {A B : Type} (a : A) (k : A -> result B) : bind (Ok a) k = k a.
Proof. reflexivity. Qed.

Lemma mapM_ok_Forall2 {A B : Type} (f : A -> result B) (l : list A) :
  forall l', mapM f l = Ok l' -> Forall2 (fun a b => f a = Ok b) l l'.
Proof.
  induction l as [|a l IH]; simpl; intros l' H.
  - inversion H. constructor.
  - destruct (f a) as [b|] eqn:Ea; try discriminate.
    destruct (mapM f l) as [bs|] eqn:El; try discriminate.
    inversion H; subst. constructor; auto.
Qed.

Lemma mapM_total {A B : Type} (f : A -> result B) (l : list A) :
  (forall a, In a l -> exists b, f a = Ok b) -> exists l', mapM f l = Ok l'.
Proof.
  induction l as [|a l IH]; simpl; intros H.
  - eauto.
  - destruct (H a (or_introl eq_refl)) as [b ->].
    destruct IH as [bs ->]; eauto.
Qed.

Lemma Forall2_In_r {A B : Type} (P : A -> B -> Prop) (l : list A) (l' : list B) :
  Forall2 P l l' -> forall b, In b l' -> exists a, In a l /\ P a b.
Proof.
  induction 1 as [|a b l l' Hab _ IH]; simpl; intros c Hc.
  - contradiction.
  - destruct Hc as [<-|Hc]; [eauto|].
    destruct (IH c Hc) as (a' & Ha' & HP); eauto.
Qed.

Lemma Forall2_In_l {A B : Type} (P : A -> B -> Prop) (l : list A) (l' : list B) :
  Forall2 P l l' -> forall a, In a l -> exists b, In b l' /\ P a b.
Proof.
  induction 1 as [|a b l l' Hab _ IH]; simpl; intros c Hc.
  - contradiction.
  - destruct Hc as [<-|Hc]; [eauto|].
    destruct (IH c Hc) as (b' & Hb' & HP); eauto.
Qed.

(** ** One station *)

Lemma station_values_ok (lib : MetPy) (dfs : Sounding) (key : string)
  (value : Sounding) (r : row) :
  station_values lib dfs key value = Ok r ->
  exists t0 td0 profile t lat lon cape cin kindex lift_index showalter,
    item0 (map temperature value) = Ok t0
    /\ item0 (map dewpoint value) = Ok td0
    /\ parcel_profile lib (map pressure value) t0 td0 = Ok profile
    /\ item0 (map time (where_station dfs key)) = Ok t
    /\ item0 (map latitude (where_station dfs key)) = Ok lat
    /\ item0 (map longitude (where_station dfs key)) = Ok lon
    /\ cape_cin lib (map pressure value) (map temperature value)
         (map dewpoint value) profile = Ok (cape, cin)
    /\ k_index lib (map pressure value) (map temperature value)
         (map dewpoint value) = Ok kindex
    /\ lifted_index lib (map pressure value) (map temperature value) profile
       = Ok lift_index
    /\ showalter_index lib (map pressure value) (map temperature value)
         (map dewpoint value) = Ok showalter
    /\ r = mkRow (CTime t) (CFloat lat) (CFloat lon)
             (CFloat (round0 (magnitude cape)))
             (CFloat (round0 (magnitude kindex)))
             (CFloat (np_round1 (magnitude lift_index)))
             (CFloat (np_round1 (magnitude showalter))).
Proof.
  unfold station_values. intro H.
  apply bind_ok in H; destruct H as (t0 & E1 & H).
  apply bind_ok in H; destruct H as (td0 & E2 & H).
  apply bind_ok in H; destruct H as (profile & E3 & H).
  apply bind_ok in H; destruct H as (t & E4 & H).
  apply bind_ok in H; destruct H as (lat & E5 & H).
  apply bind_ok in H; destruct H as (lon & E6 & H).
  apply bind_ok in H; destruct H as ([cape cin] & E7 & H).
  apply bind_ok in H; destruct H as (kindex & E8 & H).
  apply bind_ok in H; destruct H as (lift_index & E9 & H).
  apply bind_ok in H; destruct H as (showalter & E10 & H).
  inversion H; subst r.
  exists t0, td0, profile, t, lat, lon, cape, cin, kindex, lift_index, showalter.
  repeat split; assumption.
Qed.

Lemma station_values_computed (lib : MetPy) (dfs : Sounding) (key : string)
  (value : Sounding) (r : row) :
  station_values lib dfs key value = Ok r -> computed_row r.
Proof.
  intro H. apply station_values_ok in H.
  destruct H as (? & ? & ? & ? & ? & ? & ? & ? & ? & ? & ? & H).
  destruct H as (_ & _ & _ & _ & _ & _ & _ & _ & _ & _ & ->). constructor.
Qed.

(** ** Assignment by station code *)

Lemma loc_set_In (df : IndexFrame) (key : string) (r : row) (l : label) (r' : row) :
  In (l, r') (loc_set df key r) ->
  (In (l, r') df /\ fst l <> key) \/ (fst l = key /\ r' = r).
Proof.
  unfold loc_set. destruct (has_code key df) eqn:Hc.
  - rewrite in_map_iff. intros ([l0 r0] & E & Hin). simpl in E.
    destruct (String.eqb_spec (fst l0) key) as [Hk|Hk]; inversion E; subst; auto.
  - rewrite in_app_iff. simpl. intros [Hin|[E|[]]].
    + left. split; [assumption|]. intro Hk.
      assert (has_code key df = true) as Hc'; [|congruence].
      unfold has_code. apply existsb_exists. exists (l, r'). split; [assumption|].
      simpl. apply String.eqb_eq. assumption.
    + inversion E; subst. auto.
Qed.

Lemma loc_set_keeps (df : IndexFrame) (key : string) (r : row) (l : label) (r0 : row) :
  In (l, r0) df -> exists r', In (l, r') (loc_set df key r).
Proof.
  intro Hin. unfold loc_set. destruct (has_code key df).
  - destruct (String.eqb (fst l) key) eqn:Hk.
    + exists r. apply in_map_iff. exists (l, r0). simpl. rewrite Hk. auto.
    + exists r0. apply in_map_iff. exists (l, r0). simpl. rewrite Hk. auto.
  - exists r0. apply in_app_iff. auto.
Qed.

(** ** The loop over the stations *)

Section StabilityLoop.

Variable lib : MetPy.
Variable dfs : Sounding.

Lemma stability_loop_rows (items : dict Sounding) :
  forall df0 df1,
    stability_loop lib dfs items df0 = Ok df1 ->
    forall l r, In (l, r) df1 ->
      (In (l, r) df0 /\ ~ In (fst l) (dict_keys items))
      \/ (exists value, In (fst l, value) items
                        /\ station_values lib dfs (fst l) value = Ok r).
Proof.
  induction items as [|[key value] items IH]; simpl; intros df0 df1 H l r Hin.
  - inversion H; subst. auto.
  - apply bind_ok in H. destruct H as (r0 & E & H).
    destruct (IH _ _ H l r Hin) as [[Hin0 Hk]|(v & Hv & Ev)].
    + apply loc_set_In in Hin0. destruct Hin0 as [[Hin0 Hne]|[Hl ->]].
      * left. split; [assumption|]. intros [Heq|Hk']; [congruence | auto].
      * right. exists value. rewrite Hl. auto.
    + right. exists v. auto.
Qed.

Lemma stability_loop_labels (items : dict Sounding) :
  forall df0 df1,
    stability_loop lib dfs items df0 = Ok df1 ->
    forall l r0, In (l, r0) df0 -> exists r, In (l, r) df1.
Proof.
  induction items as [|[key value] items IH]; simpl; intros df0 df1 H l r0 Hin.
  - inversion H; subst. eauto.
  - apply bind_ok in H. destruct H as (r & E & H).
    destruct (loc_set_keeps df0 key r l r0 Hin) as [r' Hin'].
    eapply IH; eauto.
Qed.

Lemma stability_loop_total (items : dict Sounding) :
  (forall key value, In (key, value) items ->
                     exists r, station_values lib dfs key value = Ok r) ->
  forall df0, exists df1, stability_loop lib dfs items df0 = Ok df1.
Proof.
  induction items as [|[key value] items IH]; simpl; intros H df0.
  - eauto.
  - destruct (H key value (or_introl eq_refl)) as [r ->]. simpl.
    apply IH. intros k v Hin. apply H. auto.
Qed.

(** The first station whose computation raises ends the loop with that
    exception. *)
Lemma stability_loop_raise (before : dict Sounding) :
  forall (key : string) (value : Sounding) (after : dict Sounding)
         (e : exn) (df0 : IndexFrame),
    (forall k v, In (k, v) before ->
                 exists r, station_values lib dfs k v = Ok r) ->
    station_values lib dfs key value = Raise e ->
    stability_loop lib dfs (before ++ (key, value) :: after) df0 = Raise e.
Proof.
  induction before as [|[k v] before IH]; simpl; intros key value after e df0 H E.
  - rewrite E. reflexivity.
  - destruct (H k v (or_introl eq_refl)) as [r ->]. simpl.
    apply IH; [|assumption]. intros k' v' Hin. apply H. auto.
Qed.

End StabilityLoop.

(** ** The magnitude loop and the category column *)

Lemma getitem_column (i : string) (r : row) :
  In i columns -> exists c, getitem r i = Ok c.
Proof.
  unfold columns. simpl.
  intros [<-|[<-|[<-|[<-|[<-|[<-|[<-|[]]]]]]]]; cbv; eauto.
Qed.

Lemma getitem_computed (i : string) (r : row) (c : cell) :
  computed_row r -> getitem r i = Ok c -> get_magnitude c = Raise AttributeError.
Proof.
  intros Hr. unfold getitem.
  repeat match goal with
         | |- context [if ?b then _ else _] => destruct b
         end;
    intro E; inversion E; subst; destruct Hr; reflexivity.
Qed.

Lemma magnitude_step (i : string) (df : IndexFrame) :
  In i columns -> df <> [] ->
  (forall l r, In (l, r) df -> computed_row r) ->
  bind (mapM (fun lr => getitem (snd lr) i) df) (mapM get_magnitude)
  = Raise AttributeError.
Proof.
  intros Hi Hne Hrows.
  destruct (mapM_total (fun lr : label * row => getitem (snd lr) i) df) as [col Ecol].
  { intros [l r] _. apply getitem_column. assumption. }
  rewrite Ecol. simpl.
  apply mapM_ok_Forall2 in Ecol.
  destruct Ecol as [|[l r] c df' col' Hc _]; [congruence|].
  simpl in Hc. simpl.
  rewrite (getitem_computed i r c); [reflexivity | | assumption].
  apply (Hrows l). left. reflexivity.
Qed.

Lemma magnitude_loop_pass (cols : list string) (df dfnew : IndexFrame) :
  incl cols columns -> df <> [] ->
  (forall l r, In (l, r) df -> computed_row r) ->
  magnitude_loop cols df dfnew = Ok dfnew.
Proof.
  intros Hincl Hne Hrows. induction cols as [|i cols IH]; simpl.
  - reflexivity.
  - rewrite magnitude_step; auto.
    + apply IH. intros x Hx. apply Hincl. right. assumption.
    + apply Hincl. left. reflexivity.
Qed.

Lemma magnitude_loop_id (df : IndexFrame) :
  (forall l r, In (l, r) df -> computed_row r) ->
  magnitude_loop columns df df = Ok df.
Proof.
  intro Hrows. destruct df as [|lr df].
  - reflexivity.
  - apply magnitude_loop_pass; [apply incl_refl | discriminate | assumption].
Qed.

Lemma row_kategori_computed (r : row) :
  computed_row r -> exists k, row_kategori r = Ok k.
Proof. intros []; cbv [row_kategori getitem]; simpl; eauto. Qed.

Lemma add_kategori_ok (df : IndexFrame) (dfk : StabilityFrame) :
  add_kategori df = Ok dfk ->
  forall l kr, In (l, kr) dfk ->
    In (l, values kr) df /\ row_kategori (values kr) = Ok (Kategori kr).
Proof.
  intros H l kr Hin. apply mapM_ok_Forall2 in H.
  destruct (Forall2_In_r _ _ _ H _ Hin) as ([l0 r0] & Hin0 & E).
  simpl in E. apply bind_ok in E. destruct E as (k & Ek & E).
  inversion E; subst. simpl. auto.
Qed.

Lemma add_kategori_keeps (df : IndexFrame) (dfk : StabilityFrame) :
  add_kategori df = Ok dfk ->
  forall l r, In (l, r) df -> exists k, In (l, mkKRow r k) dfk.
Proof.
  intros H l r Hin. apply mapM_ok_Forall2 in H.
  destruct (Forall2_In_l _ _ _ H _ Hin) as ([l1 kr] & Hin1 & E).
  simpl in E. apply bind_ok in E. destruct E as (k & Ek & E).
  inversion E; subst. eauto.
Qed.

Lemma add_kategori_total (df : IndexFrame) :
  (forall l r, In (l, r) df -> computed_row r) ->
  exists dfk, add_kategori df = Ok dfk.
Proof.
  intro Hrows. apply mapM_total. intros [l r] Hin. cbn [snd fst].
  destruct (row_kategori_computed r (Hrows l r Hin)) as [k ->]. simpl. eauto.
Qed.

(** ** The whole computation *)

Section CalculateStability.

Variable lib : MetPy.

Lemma new_frame_In (stl : dict string) (l : label) (r : row) :
  In (l, r) (new_frame stl) <-> In l stl /\ r = nan_row.
Proof.
  unfold new_frame. rewrite in_map_iff. split.
  - intros (item & E & Hin). inversion E; subst. auto.
  - intros [Hin ->]. eauto.
Qed.

Lemma stability_loop_computed (data : dict Sounding) (dfs : Sounding)
  (stl : dict string) (df1 : IndexFrame) :
  stability_loop lib dfs data (new_frame stl) = Ok df1 ->
  forall l r, In (l, r) df1 -> computed_row r.
Proof.
  intros H l r Hin.
  destruct (stability_loop_rows lib dfs data _ _ H l r Hin)
    as [[Hin0 _]|(v & _ & Ev)].
  - apply new_frame_In in Hin0. destruct Hin0 as [_ ->]. constructor.
  - eapply station_values_computed; eauto.
Qed.

Lemma pd_concat_ok (data : dict Sounding) (all : Sounding) :
  pd_concat (dict_values data) = Ok all ->
  data <> [] /\ all = List.concat (dict_values data).
Proof.
  destruct data as [|kv data]; simpl; intro H; [discriminate|].
  inversion H. split; [discriminate | reflexivity].
Qed.

(** A run that returns went through the three stages: the loop over the
    stations, the category column, the removal of rows without
    geolocation; the magnitude loop changed nothing. *)
Lemma calculate_stability_stages (data : dict Sounding) (stl : dict string)
  (df : StabilityFrame) :
  calculate_stability lib data stl = Ok df ->
  data <> []
  /\ exists df1 dfk,
       stability_loop lib (station_data data) data (new_frame stl) = Ok df1
       /\ add_kategori df1 = Ok dfk
       /\ df = dropna dfk.
Proof.
  unfold calculate_stability. intro H.
  apply bind_ok in H. destruct H as (all & Eall & H).
  apply pd_concat_ok in Eall. destruct Eall as [Hne ->].
  apply bind_ok in H. destruct H as (df1 & E1 & H).
  rewrite (magnitude_loop_id df1) in H
    by (eapply stability_loop_computed; eauto).
  simpl in H.
  apply bind_ok in H. destruct H as (dfk & Ek & H).
  inversion H; subst. split; [assumption|].
  exists df1, dfk. auto.
Qed.

(** Every row of the result was computed from a sounding of the station
    it is labelled with, carries the category of its four indices, and
    has a latitude and a longitude. *)
Lemma calculate_stability_rows (data : dict Sounding) (stl : dict string)
  (df : StabilityFrame) :
  calculate_stability lib data stl = Ok df ->
  forall l kr, In (l, kr) df ->
    (exists value,
        In (fst l, value) data
        /\ station_values lib (station_data data) (fst l) value
           = Ok (values kr))
    /\ row_kategori (values kr) = Ok (Kategori kr)
    /\ isna (Lintang (values kr)) = false
    /\ isna (Bujur (values kr)) = false.
Proof.
  intros H l kr Hin.
  apply calculate_stability_stages in H.
  destruct H as (_ & df1 & dfk & E1 & Ek & ->).
  unfold dropna in Hin. apply filter_In in Hin. destruct Hin as [Hin Hna].
  simpl in Hna. apply andb_true_iff in Hna. destruct Hna as [Hlat Hlon].
  apply negb_true_iff in Hlat. apply negb_true_iff in Hlon.
  destruct (add_kategori_ok _ _ Ek l kr Hin) as [Hin1 Hk].
  repeat split; try assumption.
  destruct (stability_loop_rows lib _ data _ _ E1 l _ Hin1)
    as [[Hin0 _]|(v & Hv & Ev)].
  - apply new_frame_In in Hin0. destruct Hin0 as [_ E].
    rewrite E in Hlat. discriminate.
  - eauto.
Qed.

(** If the computation of every station returns, so does the run. *)
Lemma calculate_stability_total (data : dict Sounding) (stl : dict string) :
  data <> [] ->
  (forall key value, In (key, value) data ->
     exists r, station_values lib (station_data data) key value = Ok r) ->
  exists df, calculate_stability lib data stl = Ok df.
Proof.
  intros Hne Hall. unfold calculate_stability.
  assert (pd_concat (dict_values data) = Ok (List.concat (dict_values data)))
    as ->.
  { destruct data; [congruence | reflexivity]. }
  rewrite bind_ret. cbv beta zeta.
  destruct (stability_loop_total lib (station_data data) data Hall (new_frame stl))
    as [df1 E1].
  unfold station_data in E1. rewrite E1, bind_ret.
  rewrite (magnitude_loop_id df1)
    by (eapply stability_loop_computed; eauto).
  rewrite bind_ret.
  destruct (add_kategori_total df1) as [dfk ->].
  { eapply stability_loop_computed; eauto. }
  rewrite bind_ret. eauto.
Qed.

(** If the computation of one station raises, and that of every station
    before it returns, the run raises the same exception. *)
Lemma calculate_stability_raise (before after : dict Sounding)
  (key : string) (value : Sounding) (stl : dict string) (e : exn) :
  let data := before ++ (key, value) :: after in
  (forall k v, In (k, v) before ->
     exists r, station_values lib (station_data data) k v = Ok r) ->
  station_values lib (station_data data) key value = Raise e ->
  calculate_stability lib data stl = Raise e.
Proof.
  intros data Hbefore E. unfold calculate_stability.
  assert (pd_concat (dict_values data) = Ok (List.concat (dict_values data)))
    as ->.
  { subst data. destruct before; reflexivity. }
  rewrite bind_ret. cbv beta zeta. fold (station_data data).
  subst data.
  rewrite (stability_loop_raise lib _ before key value after e); auto.
Qed.

End CalculateStability.

(** ** Geolocation of the result *)

Lemma station_values_latlon (lib : MetPy) (data : dict Sounding) (key : string)
  (value : Sounding) (r : row) :
  station_values lib (station_data data) key value = Ok r ->
  exists lat lon,
    station_latitude data key = Ok lat /\ station_longitude data key = Ok lon
    /\ Lintang r = CFloat lat /\ Bujur r = CFloat lon.
Proof.
  intro H. apply station_values_ok in H.
  destruct H as (? & ? & ? & ? & lat & lon & ? & ? & ? & ? & ? & H).
  destruct H as (_ & _ & _ & _ & Elat & Elon & _ & _ & _ & _ & ->).
  exists lat, lon. unfold station_latitude, station_longitude. auto.
Qed.

(** C7. Every row of the result of [calculate_stability] has a latitude and
    a longitude; a station whose values were computed but whose latitude or
    longitude is missing has no row in the result; and a station for which
    nothing was retrieved has no row either (it is not kept with the
    category of an all-missing row). *)
Theorem result_set_has_geolocation :
  forall (lib : MetPy) (data : dict Sounding) (stl : dict string)
         (df : StabilityFrame),
    calculate_stability lib data stl = Ok df ->
    (forall l kr, In (l, kr) df ->
       isna (Lintang (values kr)) = false /\ isna (Bujur (values kr)) = false)
    /\ (forall key,
          station_latitude data key = Ok NaN
          \/ station_longitude data key = Ok NaN ->
          forall l kr, In (l, kr) df -> fst l <> key)
    /\ (forall key,
          ~ In key (dict_keys data) ->
          forall l kr, In (l, kr) df -> fst l <> key).
Proof.
  intros lib data stl df H. split; [|split].
  - intros l kr Hin.
    destruct (calculate_stability_rows lib data stl df H l kr Hin)
      as (_ & _ & Hlat & Hlon).
    auto.
  - intros key Hmiss l kr Hin Hl.
    destruct (calculate_stability_rows lib data stl df H l kr Hin)
      as ((v & _ & Ev) & _ & Hlat & Hlon).
    apply station_values_latlon in Ev.
    destruct Ev as (lat & lon & Elat & Elon & E1 & E2).
    rewrite Hl in Elat, Elon. rewrite E1 in Hlat. rewrite E2 in Hlon.
    destruct Hmiss as [E|E].
    + rewrite E in Elat. inversion Elat; subst. discriminate.
    + rewrite E in Elon. inversion Elon; subst. discriminate.
  - intros key Hkey l kr Hin Hl.
    destruct (calculate_stability_rows lib data stl df H l kr Hin)
      as ((v & Hv & _) & _).
    apply Hkey. rewrite <- Hl. unfold dict_keys.
    apply in_map_iff. exists (fst l, v). auto.
Qed.

(** Jakarta has data and a position, Aceh has data and no position, and
    nothing was retrieved for Medan: the result has the row of Jakarta
    only. *)
Lemma result_set_has_geolocation_witness :
  exists df,
    calculate_stability test_lib located_data station_to_location = Ok df
    /\ map fst df = [("WIII", "Jakarta")]
    /\ (forall l kr, In (l, kr) df ->
          isna (Lintang (values kr)) = false /\ isna (Bujur (values kr)) = false)
    /\ (forall l kr, In (l, kr) df -> fst l <> "WITT")
    /\ (forall l kr, In (l, kr) df -> fst l <> "WIMM").
Proof.
  destruct (calculate_stability test_lib located_data station_to_location)
    as [df|e] eqn:E; [|vm_compute in E; discriminate].
  exists df. split; [reflexivity|].
  split; [vm_compute in E; inversion E; reflexivity|].
  destruct (result_set_has_geolocation test_lib located_data
              station_to_location df E) as (H1 & H2 & H3).
  split; [exact H1|]. split.
  - apply (H2 "WITT"). left. vm_compute. reflexivity.
  - apply (H3 "WIMM"). simpl. intros [E'|[E'|[]]]; discriminate.
Defined.

(** ** Convective energies *)







(** ** Soundings that are not well formed *)

Lemma station_values_empty (lib : MetPy) (dfs : Sounding) (key : string) :
  station_values lib dfs key [] = Raise IndexError.
Proof. reflexivity. Qed.

Lemma station_values_profile_raise (lib : MetPy) (dfs : Sounding) (key : string)
  (l0 : level) (value : Sounding) (e : exn) :
  parcel_profile lib (map pressure (l0 :: value)) (temperature l0) (dewpoint l0)
  = Raise e ->
  station_values lib dfs key (l0 :: value) = Raise e.
Proof.
  intro E. unfold station_values. simpl. simpl in E. rewrite E. reflexivity.
Qed.

(** A retrieved station that is in the station table and has a position is
    in the result of every run that returns. *)
Lemma located_station_in_result (lib : MetPy) (data : dict Sounding)
  (stl : dict string) (df : StabilityFrame) (key name : string)
  (value : Sounding) (lat lon : pyfloat) :
  calculate_stability lib data stl = Ok df ->
  In (key, value) data -> In (key, name) stl ->
  station_latitude data key = Ok lat -> station_longitude data key = Ok lon ->
  isnan lat = false -> isnan lon = false ->
  exists kr, In ((key, name), kr) df.
Proof.
  intros H Hdata Hstl Elat Elon Hlat Hlon.
  apply calculate_stability_stages in H.
  destruct H as (_ & df1 & dfk & E1 & Ek & ->).
  assert (In ((key, name), nan_row) (new_frame stl)) as Hin0
      by (apply new_frame_In; auto).
  destruct (stability_loop_labels lib _ data _ _ E1 _ _ Hin0) as [r Hin1].
  destruct (stability_loop_rows lib _ data _ _ E1 _ _ Hin1)
    as [[_ Hk]|(v & _ & Ev)].
  - exfalso. apply Hk. simpl. unfold dict_keys. apply in_map_iff.
    exists (key, value). auto.
  - simpl in Ev. apply station_values_latlon in Ev.
    destruct Ev as (lat' & lon' & Elat' & Elon' & E2 & E3).
    rewrite Elat in Elat'. rewrite Elon in Elon'.
    inversion Elat'; inversion Elon'; subst lat' lon'.
    destruct (add_kategori_keeps _ _ Ek _ _ Hin1) as [k Hink].
    exists (mkKRow r k). unfold dropna. apply filter_In. split; [assumption|].
    simpl. rewrite E2, E3. simpl. rewrite Hlat, Hlon. reflexivity.
Qed.

(** C4 (as the program has it). [calculate_stability] makes no check of its
    own on a sounding.  An empty sounding fails with [IndexError] at its
    first level; for any other the parcel profile is asked of the library
    first, and what the library raises is what the station's computation
    raises; an exception for one station, the stations before it computed,
    is the exception of the whole run, so no station is in a result; and
    in a run that returns, every retrieved station of the station table
    that has a position is in the result: the only stations left out are
    those without one. *)
Theorem no_malformed_profile_check :
  forall (lib : MetPy),
    (forall dfs key, station_values lib dfs key [] = Raise IndexError)
    /\ (forall dfs key l0 value e,
          parcel_profile lib (map pressure (l0 :: value)) (temperature l0)
            (dewpoint l0) = Raise e ->
          station_values lib dfs key (l0 :: value) = Raise e)
    /\ (forall before after key value stl e,
          let data := before ++ (key, value) :: after in
          (forall k v, In (k, v) before ->
             exists r, station_values lib (station_data data) k v = Ok r) ->
          station_values lib (station_data data) key value = Raise e ->
          calculate_stability lib data stl = Raise e)
    /\ (forall data stl df key name value lat lon,
          calculate_stability lib data stl = Ok df ->
          In (key, value) data -> In (key, name) stl ->
          station_latitude data key = Ok lat ->
          station_longitude data key = Ok lon ->
          isnan lat = false -> isnan lon = false ->
          exists kr, In ((key, name), kr) df).
Proof.
  intro lib. split; [|split; [|split]].
  - apply station_values_empty.
  - apply station_values_profile_raise.
  - intros. eapply calculate_stability_raise; eassumption.
  - intros. eapply located_station_in_result; eassumption.
Qed.

(** With the library that refuses unordered pressure: the sounding of
    Padang raises in the parcel profile and the run ends there, Jakarta
    before it computed; without Padang, Jakarta is in the result. *)
Lemma no_malformed_profile_check_witness :
  station_values strict_lib
    (station_data [("WIII", jakarta); ("WIMG", padang_unordered)]) "WIMG"
    padang_unordered = Raise ValueError
  /\ calculate_stability strict_lib
       [("WIII", jakarta); ("WIMG", padang_unordered)] station_to_location
     = Raise ValueError
  /\ exists df kr,
       calculate_stability strict_lib [("WIII", jakarta)] station_to_location
       = Ok df
       /\ In (("WIII", "Jakarta"), kr) df.
Proof.
  destruct (no_malformed_profile_check strict_lib) as (_ & H2 & H3 & H4).
  split; [|split].
  - apply H2. reflexivity.
  - apply (H3 [("WIII", jakarta)] [] "WIMG" padang_unordered).
    + intros k v [E|[]]. inversion E; subst.
      eexists. vm_compute. reflexivity.
    + vm_compute. reflexivity.
  - destruct (calculate_stability strict_lib [("WIII", jakarta)]
                station_to_location) as [df|e] eqn:E;
      [|vm_compute in E; discriminate].
    destruct (station_latitude [("WIII", jakarta)] "WIII") as [lat|e] eqn:Elat;
      [|vm_compute in Elat; discriminate].
    destruct (station_longitude [("WIII", jakarta)] "WIII") as [lon|e] eqn:Elon;
      [|vm_compute in Elon; discriminate].
    destruct (H4 _ _ df "WIII" "Jakarta" jakarta lat lon E) as [kr Hkr].
    + left. reflexivity.
    + vm_compute. tauto.
    + exact Elat.
    + exact Elon.
    + vm_compute in Elat. inversion Elat. reflexivity.
    + vm_compute in Elon. inversion Elon. reflexivity.
    + exists df, kr. split; [reflexivity | exact Hkr].
Defined.

(** C4, as stated, fails: the sounding of Padang, whose pressure goes up
    again, is refused by the library inside the parcel profile, not by a
    check before it, and the exception ends the run: Jakarta, which alone
    is in the result and whose values were computed first, is in no
    result either.  The same holds for a sounding without any level, which
    fails with [IndexError]. *)
Lemma malformed_sounding_aborts_run :
  decreasing (map pressure padang_unordered) = false
  /\ (exists kr,
        calculate_stability strict_lib [("WIII", jakarta)] station_to_location
        = Ok [(("WIII", "Jakarta"), kr)])
  /\ (exists r,
        station_values strict_lib
          (station_data [("WIII", jakarta); ("WIMG", padang_unordered)])
          "WIII" jakarta = Ok r)
  /\ parcel_profile strict_lib (map pressure padang_unordered)
       (hd NaN (map temperature padang_unordered))
       (hd NaN (map dewpoint padang_unordered))
     = Raise ValueError
  /\ calculate_stability strict_lib
       [("WIII", jakarta); ("WIMG", padang_unordered)] station_to_location
     = Raise ValueError
  /\ calculate_stability strict_lib
       [("WIII", jakarta); ("WIMM", [])] station_to_location
     = Raise IndexError.
Proof.
  split; [reflexivity|].
  split; [eexists; vm_compute; reflexivity|].
  split; [eexists; vm_compute; reflexivity|].
  repeat split; vm_compute; reflexivity.
Qed.

(** ** The level indices *)

(** C5. On the example profile the K-Index of the specification's library
    is [(15 - -20) + 10 - (5 - -5) = 35], the program stores it (rounded to
    a whole number) as 35, and with cape = 3000 and Lifted Index = -6 the
    classifier returns strongly unstable, whatever the Showalter index. *)
Theorem example_k_index_strongly_unstable :
  forall (th : Thermo) (code : string) (lat lon : pyfloat),
    let value := sounding_of code lat lon example_levels in
    let P := map pressure value in
    let T := map temperature value in
    let Td := map dewpoint value in
    k_index_spec P T Td
    = fl_sub (fl_add (fl_sub (Fin 15) (Fin (-20))) (Fin 10))
        (fl_sub (Fin 5) (Fin (-5)))
    /\ k_index (spec_metpy th) P T Td = Ok (mkQuantity (Fin 35))
    /\ (forall dfs key r,
          station_values (spec_metpy th) dfs key value = Ok r ->
          K_Index r = CFloat (Fin 35))
    /\ (forall s : pyfloat,
          index_criteria (Fin 3000) (Fin 35) (Fin (-6)) s = StronglyUnstable).
Proof.
  intros th code lat lon value P T Td.
  assert (E : k_index (spec_metpy th) P T Td = Ok (mkQuantity (Fin 35)))
    by reflexivity.
  split; [reflexivity|]. split; [exact E|]. split; [|reflexivity].
  intros dfs key r H. apply station_values_ok in H.
  destruct H as (? & ? & ? & ? & ? & ? & ? & ? & kq & ? & ? & H).
  destruct H as (_ & _ & _ & _ & _ & _ & _ & Ek & _ & _ & ->).
  fold P T Td in Ek. rewrite E in Ek. inversion Ek; subst kq. reflexivity.
Qed.

(** With the stand-in parcel theory (cape 3000, a parcel 6 K warmer than
    the environment at 500 hPa) the run itself classifies the example as
    strongly unstable. *)
Lemma example_k_index_strongly_unstable_witness :
  exists r kr,
    station_values test_lib (station_data [("WIII", jakarta)]) "WIII" jakarta
    = Ok r
    /\ K_Index r = CFloat (Fin 35)
    /\ calculate_stability test_lib [("WIII", jakarta)] station_to_location
       = Ok [(("WIII", "Jakarta"), kr)]
    /\ values kr = r
    /\ Kategori kr = StronglyUnstable.
Proof.
  eexists. eexists.
  split; [vm_compute; reflexivity|].
  split.
  - apply (proj1 (proj2 (proj2
             (example_k_index_strongly_unstable test_thermo "WIII"
                (Fin (-61 # 10)) (Fin (1067 # 10)))))
             (station_data [("WIII", jakarta)]) "WIII").
    vm_compute. reflexivity.
  - split; [vm_compute; reflexivity|]. split; reflexivity.
Defined.

Lemma spans_level_cons (p : Q) (x : pyfloat) (P : list pyfloat) :
  spans_level p (x :: P) = false -> spans_level p P = false.
Proof.
  unfold spans_level. simpl.
  destruct (existsb (fun y => ge_level y p) P), (existsb (fun y => le_level y p) P);
    rewrite ?orb_true_r; simpl; auto.
Qed.

Lemma spans_level_bracket (p p1 : Q) (y : pyfloat) (P : list pyfloat) :
  (p <= p1)%Q -> le_level y p = true -> In y (Fin p1 :: P) ->
  spans_level p (Fin p1 :: P) = true.
Proof.
  intros H1 H2 Hin. unfold spans_level. apply andb_true_iff. split.
  - simpl. apply orb_true_iff. left. apply Qle_bool_iff. assumption.
  - apply existsb_exists. exists y. auto.
Qed.

(** A level the pressure range does not span has no interpolated value. *)
Lemma interp_at_not_spanned (p : Q) (P : list pyfloat) :
  forall V, spans_level p P = false -> interp_at p P V = NaN.
Proof.
  induction P as [|x ps IH]; intros V H.
  - reflexivity.
  - assert (Hps := spans_level_cons p x ps H).
    destruct V as [|v1 vs]; [destruct x; reflexivity|].
    destruct x as [p1| | |]; simpl; try (apply IH; assumption).
    destruct (Qeq_bool p1 p) eqn:Eeq.
    + exfalso. apply Qeq_bool_iff in Eeq.
      rewrite (spans_level_bracket p p1 (Fin p1) ps) in H; try discriminate.
      * rewrite Eeq. apply Qle_refl.
      * simpl. apply Qle_bool_iff. rewrite Eeq. apply Qle_refl.
      * left. reflexivity.
    + destruct ps as [|[p2| | |] ps']; try (apply IH; assumption).
      destruct vs as [|v2 vs']; try (apply IH; assumption).
      destruct (Qltb p2 p && Qltb p p1) eqn:Eb; [|apply IH; assumption].
      exfalso. apply andb_true_iff in Eb. destruct Eb as [E1 E2].
      apply Qltb_lt in E1. apply Qltb_lt in E2.
      rewrite (spans_level_bracket p p1 (Fin p2) (Fin p2 :: ps')) in H;
        try discriminate.
      * apply Qlt_le_weak. assumption.
      * simpl. apply Qle_bool_iff. apply Qlt_le_weak. assumption.
      * right. left. reflexivity.
Qed.

Lemma fl_sub_nan (y : pyfloat) : fl_sub NaN y = NaN.
Proof. destruct y; reflexivity. Qed.

Lemma index_criteria_nan_lifted (c k s : pyfloat) :
  index_criteria c k NaN s
  = if gt_int c 100 && gt_int k 0 && lt_int s 0 then WeaklyUnstable else Stable.
Proof.
  unfold index_criteria. simpl. rewrite !andb_false_r. reflexivity.
Qed.

Lemma index_criteria_nan_showalter (c k i : pyfloat) :
  index_criteria c k i NaN <> WeaklyUnstable.
Proof.
  unfold index_criteria, WeaklyUnstable. simpl. rewrite !andb_false_r.
  repeat match goal with
         | |- context [if ?b then _ else _] => destruct b
         end; discriminate.
Qed.

Lemma dict_In_unique {V : Type} (d : dict V) (k : string) (v1 v2 : V) :
  NoDup (dict_keys d) -> In (k, v1) d -> In (k, v2) d -> v1 = v2.
Proof.
  unfold dict_keys. induction d as [|[k' v'] d IH]; simpl; intros Hnd H1 H2.
  - contradiction.
  - inversion Hnd as [|? ? Hnotin Hnd']; subst.
    assert (forall v, In (k', v) d -> False) as Hno.
    { intros v Hv. apply Hnotin. apply in_map_iff. exists (k', v). auto. }
    destruct H1 as [E1|H1], H2 as [E2|H2].
    + congruence.
    + inversion E1; subst. destruct (Hno _ H2).
    + inversion E2; subst. destruct (Hno _ H1).
    + auto.
Qed.

(** What a library that returns missing indices for an unspanned 500 hPa
    level leads to, whichever library it is. *)
Lemma missing_500_rows (lib : MetPy) (data : dict Sounding) (stl : dict string)
  (df : StabilityFrame) :
  (forall P T profile q,
      spans_level 500 P = false -> lifted_index lib P T profile = Ok q ->
      magnitude q = NaN) ->
  (forall P T Td q,
      spans_level 500 P = false -> showalter_index lib P T Td = Ok q ->
      magnitude q = NaN) ->
  NoDup (dict_keys data) ->
  calculate_stability lib data stl = Ok df ->
  forall l kr value,
    In (l, kr) df -> In (fst l, value) data ->
    spans_level 500 (map pressure value) = false ->
    Lifted_Index (values kr) = CFloat NaN
    /\ Showalter_Index (values kr) = CFloat NaN
    /\ Kategori kr = Stable.
Proof.
  intros Hli Hsi Hnd H l kr value Hin Hv Hspan.
  destruct (calculate_stability_rows lib data stl df H l kr Hin)
    as ((v & Hv' & Ev) & Hk & _).
  assert (v = value) by (eapply dict_In_unique; eauto). subst v.
  apply station_values_ok in Ev.
  destruct Ev as (? & ? & profile & ? & ? & ? & ? & ? & ? & lq & sq & Ev).
  destruct Ev as (_ & _ & _ & _ & _ & _ & _ & _ & El & Es & Er).
  apply (Hli _ _ _ _ Hspan) in El. apply (Hsi _ _ _ _ Hspan) in Es.
  rewrite El, Es in Er. simpl in Er.
  rewrite Er in Hk |- *. simpl. repeat split.
  cbv [row_kategori getitem] in Hk. simpl in Hk.
  rewrite index_criteria_nan_lifted in Hk. simpl in Hk.
  rewrite andb_false_r in Hk. inversion Hk. reflexivity.
Qed.

(** C6. With the library of the specification, a station of the result
    whose sounding does not span 500 hPa has a missing (NaN, not zero)
    Lifted Index and Showalter Index; a missing Lifted Index rules out the
    two upper tiers and a missing Showalter Index the third, whatever CAPE
    and K-Index are; and the station's category is not above weakly
    unstable. *)
Theorem missing_500_never_above_weak :
  forall (th : Thermo) (data : dict Sounding) (stl : dict string)
         (df : StabilityFrame),
    NoDup (dict_keys data) ->
    calculate_stability (spec_metpy th) data stl = Ok df ->
    forall l kr value,
      In (l, kr) df -> In (fst l, value) data ->
      spans_level 500 (map pressure value) = false ->
      Lifted_Index (values kr) = CFloat NaN
      /\ Showalter_Index (values kr) = CFloat NaN
      /\ Lifted_Index (values kr) <> CFloat (Fin 0)
      /\ Showalter_Index (values kr) <> CFloat (Fin 0)
      /\ (forall c k s,
            index_criteria c k NaN s <> StronglyUnstable
            /\ index_criteria c k NaN s <> ModeratelyUnstable)
      /\ (forall c k i, index_criteria c k i NaN <> WeaklyUnstable)
      /\ (Kategori kr = Stable \/ Kategori kr = WeaklyUnstable).
Proof.
  intros th data stl df Hnd H l kr value Hin Hv Hspan.
  destruct (missing_500_rows (spec_metpy th) data stl df) with (l := l)
    (kr := kr) (value := value) as (E1 & E2 & E3); try assumption.
  - intros P T profile q HP E. simpl in E. inversion E; subst q. simpl.
    unfold lifted_index_spec. rewrite interp_at_not_spanned by assumption.
    apply fl_sub_nan.
  - intros P T Td q HP E. simpl in E. inversion E; subst q. simpl.
    unfold showalter_index_spec. rewrite interp_at_not_spanned by assumption.
    apply fl_sub_nan.
  - rewrite E1, E2. repeat split; try discriminate; auto.
    + rewrite index_criteria_nan_lifted.
      destruct (_ && _ && _); discriminate.
    + rewrite index_criteria_nan_lifted.
      destruct (_ && _ && _); discriminate.
    + apply index_criteria_nan_showalter.
Qed.

(** Surabaya's sounding stops at 700 hPa; the stand-in library gives it a
    CAPE of 3000 J/kg, and its category is stable. *)
Lemma missing_500_never_above_weak_witness :
  exists df kr,
    calculate_stability test_lib
      [("WIII", jakarta); ("WRSJ", surabaya_low)] station_to_location = Ok df
    /\ In (("WRSJ", "Surabaya"), kr) df
    /\ CAPE (values kr) = CFloat (Fin 3000)
    /\ Lifted_Index (values kr) = CFloat NaN
    /\ Showalter_Index (values kr) = CFloat NaN
    /\ (Kategori kr = Stable \/ Kategori kr = WeaklyUnstable).
Proof.
  eexists. eexists.
  split; [vm_compute; reflexivity|].
  split; [right; left; reflexivity|].
  split; [reflexivity|].
  match goal with
  | |- context [Kategori ?kr] =>
      destruct (missing_500_never_above_weak test_thermo
                  [("WIII", jakarta); ("WRSJ", surabaya_low)]
                  station_to_location
                  _
                  ltac:(repeat constructor; simpl; intuition discriminate)
                  ltac:(vm_compute; reflexivity)
                  ("WRSJ", "Surabaya") kr surabaya_low)
        as (H1 & H2 & _ & _ & _ & _ & H3)
  end.
  - right. left. reflexivity.
  - right. left. reflexivity.
  - reflexivity.
  - auto.
Defined.

(** ** Retrieval *)

Lemma dict_set_keys {V : Type} (d : dict V) (k' : string) (v : V) (k : string) :
  In k (dict_keys (dict_set d k' v)) <-> k = k' \/ In k (dict_keys d).
Proof.
  unfold dict_keys. induction d as [|[k0 v0] d IH]; simpl.
  - intuition.
  - destruct (String.eqb_spec k0 k') as [->|Hne]; simpl.
    + intuition.
    + rewrite IH. intuition.
Qed.

Lemma dict_get_None {V : Type} (d : dict V) (k : string) :
  dict_get d k = None <-> ~ In k (dict_keys d).
Proof.
  unfold dict_keys. induction d as [|[k0 v0] d IH]; simpl.
  - intuition.
  - destruct (String.eqb_spec k0 k) as [->|Hne].
    + split; [discriminate | intros H; exfalso; auto].
    + rewrite IH. intuition.
Qed.

Section Retrieval.

Context {World : Type}.
Variable request_data : datetime -> string -> World -> result Sounding * World.
Variable date : datetime.

Lemma answers_stations (stations : list string) :
  forall w, map fst (answers request_data date stations w) = stations.
Proof.
  induction stations as [|stn stations IH]; simpl; intro w.
  - reflexivity.
  - destruct (request_data date stn w) as [r w']. simpl. rewrite IH. reflexivity.
Qed.

(** A fetch that raises one of the two caught exceptions writes one
    message and leaves the mapping as it was; the loop goes on with the
    rest of the stations. *)
Lemma retrieve_loop_caught (stn : string) (rest : list string)
  (d : dict Sounding) (w w' : World) (e : exn) :
  request_data date stn w = (Raise e, w') ->
  e = HTTPError \/ e = ValueError ->
  exists msg,
    retrieve_loop request_data date (stn :: rest) d w
    = match retrieve_loop request_data date rest d w' with
      | (r, w2, t) => (r, w2, EvRequest date stn :: EvWrite msg :: t)
      end.
Proof.
  intros E He. simpl. unfold mbind, try_request, request. rewrite E.
  destruct He as [->| ->]; simpl;
    destruct (retrieve_loop request_data date rest d w') as [[r w2] t];
    eexists; reflexivity.
Qed.

(** Any other exception ends the retrieval. *)
Lemma retrieve_loop_uncaught (stn : string) (rest : list string)
  (d : dict Sounding) (w w' : World) (e : exn) :
  request_data date stn w = (Raise e, w') ->
  e <> HTTPError -> e <> ValueError ->
  retrieve_loop request_data date (stn :: rest) d w
  = (Raise e, w', [EvRequest date stn]).
Proof.
  intros E H1 H2. simpl. unfold mbind, try_request, request. rewrite E.
  destruct e; try congruence; reflexivity.
Qed.

Lemma retrieve_loop_fetched (stn : string) (rest : list string)
  (d : dict Sounding) (w w' : World) (dfori : Sounding) :
  request_data date stn w = (Ok dfori, w') ->
  retrieve_loop request_data date (stn :: rest) d w
  = match retrieve_loop request_data date rest (dict_set d stn dfori) w' with
    | (r, w2, t) => (r, w2, EvRequest date stn :: t)
    end.
Proof.
  intros E. simpl. unfold mbind, try_request, request. rewrite E. simpl.
  destruct (retrieve_loop request_data date rest _ w') as [[r w2] t].
  reflexivity.
Qed.

Lemma retrieve_loop_handled (stations : list string) :
  forall (d0 : dict Sounding) (w : World),
    forallb (fun a => handled (snd a)) (answers request_data date stations w)
    = true ->
    exists d w' t,
      retrieve_loop request_data date stations d0 w = (Ok d, w', t)
      /\ filter is_request t = map (EvRequest date) stations
      /\ forall stn,
           In stn (dict_keys d)
           <-> In stn (dict_keys d0)
               \/ exists df,
                    In (stn, Ok df) (answers request_data date stations w).
Proof.
  induction stations as [|stn stations IH]; intros d0 w H.
  - exists d0, w, []. simpl. repeat split; auto.
    intros [Hin|[df []]]. assumption.
  - simpl in H. destruct (request_data date stn w) as [r w1] eqn:E.
    simpl in H. apply andb_true_iff in H. destruct H as [Hr Hrest].
    destruct r as [dfori|e].
    + rewrite (retrieve_loop_fetched _ _ _ _ _ _ E).
      destruct (IH (dict_set d0 stn dfori) w1 Hrest) as (d & w' & t & E' & Ht & Hd).
      rewrite E'. exists d, w', (EvRequest date stn :: t).
      split; [reflexivity|]. split; [simpl; rewrite Ht; reflexivity|].
      intro s. rewrite Hd, dict_set_keys. simpl. rewrite E. simpl.
      split.
      * intros [[->|Hin]|(df & Hin)]; eauto.
      * intros [Hin|(df & [Heq|Hin])]; eauto.
        inversion Heq; subst. auto.
    + assert (e = HTTPError \/ e = ValueError) as He
          by (destruct e; try discriminate; auto).
      destruct (retrieve_loop_caught stn stations d0 w w1 e E He) as [msg ->].
      destruct (IH d0 w1 Hrest) as (d & w' & t & E' & Ht & Hd).
      rewrite E'. exists d, w', (EvRequest date stn :: EvWrite msg :: t).
      split; [reflexivity|]. split; [simpl; rewrite Ht; reflexivity|].
      intro s. rewrite Hd. simpl. rewrite E. simpl.
      split.
      * intros [Hin|(df & Hin)]; eauto.
      * intros [Hin|(df & [Heq|Hin])]; eauto. discriminate.
Qed.

Lemma retrieve_loop_requests (stations : list string) :
  forall (d0 : dict Sounding) (w : World),
    requests_at date (snd (retrieve_loop request_data date stations d0 w)).
Proof.
  unfold requests_at.
  induction stations as [|stn stations IH]; intros d0 w.
  - constructor.
  - destruct (request_data date stn w) as [[dfori|e] w1] eqn:E.
    + rewrite (retrieve_loop_fetched _ _ _ _ _ _ E).
      specialize (IH (dict_set d0 stn dfori) w1).
      destruct (retrieve_loop _ _ _ _ w1) as [[r w2] t]. simpl in *.
      constructor; auto.
    + destruct e;
        try (rewrite (retrieve_loop_uncaught _ _ _ _ _ _ E);
             [repeat constructor | discriminate | discriminate]).
      * destruct (retrieve_loop_caught stn stations d0 w w1 _ E
                    (or_introl eq_refl)) as [msg ->].
        specialize (IH d0 w1).
        destruct (retrieve_loop _ _ _ _ w1) as [[r w2] t]. simpl in *.
        repeat constructor; auto.
      * destruct (retrieve_loop_caught stn stations d0 w w1 _ E
                    (or_intror eq_refl)) as [msg ->].
        specialize (IH d0 w1).
        destruct (retrieve_loop _ _ _ _ w1) as [[r w2] t]. simpl in *.
        repeat constructor; auto.
Qed.

End Retrieval.

(** C10. When every fetch returns or raises one of the two caught
    exceptions, the retrieval returns a mapping; it has sent exactly one
    request per station of the list, in order, and none again after a
    failure; the keys of the mapping are the stations whose fetch returned;
    and, the stations being distinct, a station whose fetch raised is
    absent from the mapping. *)
Theorem one_request_per_station :
  forall (World : Type)
         (request_data : datetime -> string -> World -> result Sounding * World)
         (date : datetime) (stations : list string) (w : World),
    forallb (fun a => handled (snd a)) (answers request_data date stations w)
    = true ->
    exists d w' t,
      retrieve_data_from_wyoming request_data date stations w = (Ok d, w', t)
      /\ filter is_request t = map (EvRequest date) stations
      /\ (forall stn,
            In stn (dict_keys d)
            <-> exists df, In (stn, Ok df) (answers request_data date stations w))
      /\ (NoDup stations ->
          forall stn e,
            In (stn, Raise e) (answers request_data date stations w) ->
            dict_get d stn = None).
Proof.
  intros World request_data date stations w H.
  destruct (retrieve_loop_handled request_data date stations [] w H)
    as (d & w' & t & E & Ht & Hd).
  exists d, w', t. split; [exact E|]. split; [exact Ht|].
  assert (forall stn,
             In stn (dict_keys d)
             <-> exists df, In (stn, Ok df) (answers request_data date stations w))
    as Hkeys.
  { intro stn. rewrite Hd. simpl. intuition. }
  split; [exact Hkeys|].
  intros Hnd stn e Hin. apply dict_get_None. rewrite Hkeys.
  intros (df & Hin').
  assert (Raise e = Ok df); [|discriminate].
  apply (dict_In_unique (answers request_data date stations w) stn);
    try assumption.
  unfold dict_keys. rewrite answers_stations. assumption.
Qed.

(** The 29 stations of [main] against the counting archive: 29 requests,
    two stations in the mapping, busy Medan not among them. *)
Lemma one_request_per_station_witness :
  forallb (fun a => handled (snd a)) (answers test_archive request_date stations 0%nat)
  = true
  /\ exists d w' t,
       retrieve_data_from_wyoming test_archive request_date stations 0%nat
       = (Ok d, w', t)
       /\ filter is_request t = map (EvRequest request_date) stations
       /\ (forall stn,
             In stn (dict_keys d)
             <-> exists df,
                   In (stn, Ok df) (answers test_archive request_date stations 0%nat))
       /\ (NoDup stations ->
           forall stn e,
             In (stn, Raise e) (answers test_archive request_date stations 0%nat) ->
             dict_get d stn = None).
Proof.
  split; [vm_compute; reflexivity|].
  apply (one_request_per_station nat test_archive request_date stations 0%nat).
  vm_compute. reflexivity.
Defined.

(** ** Station-local errors *)

(** C2 (as the program has it). Only the retrieval keeps an error to its
    station, and only [HTTPError] and [ValueError]: such a fetch writes a
    message, adds nothing to the mapping, and the loop goes on with the
    remaining stations; any other exception ends the retrieval.
    [calculate_stability] catches nothing per station: the first station
    whose computation raises ends the run with that exception; the run
    returns a result when at least one station was retrieved and the
    computation of every retrieved station returns, and with no station
    retrieved it raises [ValueError]. *)
Theorem errors_station_local_in_retrieval_only :
  forall (World : Type)
         (request_data : datetime -> string -> World -> result Sounding * World)
         (lib : MetPy),
    (forall date stn rest d w w' e,
        request_data date stn w = (Raise e, w') ->
        e = HTTPError \/ e = ValueError ->
        exists msg,
          retrieve_loop request_data date (stn :: rest) d w
          = match retrieve_loop request_data date rest d w' with
            | (r, w2, t) => (r, w2, EvRequest date stn :: EvWrite msg :: t)
            end)
    /\ (forall date stn rest d w w' e,
          request_data date stn w = (Raise e, w') ->
          e <> HTTPError -> e <> ValueError ->
          retrieve_loop request_data date (stn :: rest) d w
          = (Raise e, w', [EvRequest date stn]))
    /\ (forall before after key value stl e,
          let data := before ++ (key, value) :: after in
          (forall k v, In (k, v) before ->
             exists r, station_values lib (station_data data) k v = Ok r) ->
          station_values lib (station_data data) key value = Raise e ->
          calculate_stability lib data stl = Raise e)
    /\ (forall data stl,
          data <> [] ->
          (forall key value, In (key, value) data ->
             exists r, station_values lib (station_data data) key value = Ok r) ->
          exists df, calculate_stability lib data stl = Ok df)
    /\ (forall stl, calculate_stability lib [] stl = Raise ValueError).
Proof.
  intros World request_data lib. split; [|split; [|split; [|split]]].
  - intros. eapply retrieve_loop_caught; eassumption.
  - intros. eapply retrieve_loop_uncaught; eassumption.
  - intros. eapply calculate_stability_raise; eassumption.
  - intros. eapply calculate_stability_total; eassumption.
  - intro stl. reflexivity.
Qed.

(** Busy Medan is skipped and Jakarta after it is fetched; an unreachable
    archive ends the retrieval at the first station; Padang's unordered
    sounding ends the computation for Jakarta too; Jakarta alone gives a
    result and no station at all gives [ValueError]. *)
Lemma errors_station_local_in_retrieval_only_witness :
  (exists msg,
      retrieve_loop test_archive request_date ["WIMM"; "WIII"] [] 0%nat
      = match retrieve_loop test_archive request_date ["WIII"] [] 1%nat with
        | (r, w2, t) =>
            (r, w2, EvRequest request_date "WIMM" :: EvWrite msg :: t)
        end)
  /\ retrieve_loop test_archive request_date ["WIII"] [] 1%nat
     = (Ok [("WIII", jakarta)], 2%nat, [EvRequest request_date "WIII"])
  /\ retrieve_loop offline_archive request_date ["WITT"; "WIMM"] [] 0%nat
     = (Raise (OtherError "ConnectionError"), 1%nat,
        [EvRequest request_date "WITT"])
  /\ calculate_stability strict_lib unordered_data station_to_location
     = Raise ValueError
  /\ (exists df,
        calculate_stability strict_lib [("WIII", jakarta)] station_to_location
        = Ok df)
  /\ calculate_stability strict_lib [] station_to_location = Raise ValueError.
Proof.
  destruct (errors_station_local_in_retrieval_only nat test_archive strict_lib)
    as (H1 & _ & H3 & H4 & H5).
  destruct (errors_station_local_in_retrieval_only nat offline_archive strict_lib)
    as (_ & H2 & _).
  split; [|split; [|split; [|split; [|split]]]].
  - apply (H1 request_date "WIMM" ["WIII"] [] 0%nat 1%nat HTTPError).
    + reflexivity.
    + left. reflexivity.
  - reflexivity.
  - apply (H2 request_date "WITT" ["WIMM"] [] 0%nat 1%nat
             (OtherError "ConnectionError")).
    + reflexivity.
    + discriminate.
    + discriminate.
  - apply (H3 [] [("WIII", jakarta)] "WIMG" padang_unordered).
    + intros k v [].
    + vm_compute. reflexivity.
  - apply H4; [discriminate|].
    intros key value [E|[]]. inversion E; subst.
    eexists. vm_compute. reflexivity.
  - apply H5.
Defined.

(** C2, as stated, fails: both soundings are retrieved, the computation for
    Jakarta alone returns, the one for Padang raises, and the run ends with
    that exception before any table is shown, Jakarta's included. *)
Lemma diagnostic_failure_aborts_run :
  fst (fst (retrieve_data_from_wyoming unordered_archive request_date
              stations 0%nat))
  = Ok unordered_data
  /\ (exists r,
        station_values strict_lib (station_data unordered_data) "WIII" jakarta
        = Ok r)
  /\ station_values strict_lib (station_data unordered_data) "WIMG"
       padang_unordered
     = Raise ValueError
  /\ calculate_stability strict_lib unordered_data station_to_location
     = Raise ValueError
  /\ fst (fst (main unordered_archive strict_lib
                 (mkdatetime 2023 10 17 6 30 0 0) true false 0%nat))
     = Raise ValueError
  /\ existsb is_dataframe
       (snd (main unordered_archive strict_lib
               (mkdatetime 2023 10 17 6 30 0 0) true false 0%nat))
     = false.
Proof.
  split; [vm_compute; reflexivity|].
  split; [eexists; vm_compute; reflexivity|].
  repeat split; vm_compute; reflexivity.
Qed.

(** ** The script *)

Section Traces.

Context {World : Type}.
Variable date : datetime.

Lemma mbind_requests {A B : Type} (m : M A) (k : A -> M B) (w : World) :
  requests_at date (snd (m w)) ->
  (forall a w', requests_at date (snd (k a w'))) ->
  requests_at date (snd (mbind m k w)).
Proof.
  unfold mbind, requests_at. intros Hm Hk.
  destruct (m w) as [[[a|e] w1] t1]; simpl in *; [|assumption].
  specialize (Hk a w1). destruct (k a w1) as [[r w2] t2]. simpl in *.
  apply Forall_app. auto.
Qed.

End Traces.

(** C9. In every run of [main], whatever the clock says, every request sent
    to the archive asks for 2023-10-16 00:00, and the clock has no effect at
    all on what the run does: the times computed from it are not used.
    With the first checkbox ticked the requests of the run are those of the
    one retrieval for that date. *)
Theorem request_date_is_fixed :
  forall (World : Type)
         (request_data : datetime -> string -> World -> result Sounding * World)
         (lib : MetPy) (now : datetime) (on dmap : bool) (w : World),
    requests_at (mkdatetime 2023 10 16 0 0 0 0)
      (snd (main request_data lib now on dmap w))
    /\ filter is_request (snd (main request_data lib now true dmap w))
       = filter is_request
           (snd (retrieve_data_from_wyoming request_data
                   (mkdatetime 2023 10 16 0 0 0 0) stations w))
    /\ forall now' : datetime,
         main request_data lib now' on dmap w = main request_data lib now on dmap w.
Proof.
  intros World request_data lib now on dmap w.
  split; [|split; [|reflexivity]].
  - unfold main. fold request_date.
    apply mbind_requests; [repeat constructor|]. intros _ w1.
    apply mbind_requests.
    + destruct on; [|constructor].
      apply mbind_requests; [repeat constructor|]. intros _ w2.
      apply mbind_requests; [apply retrieve_loop_requests|]. intros d w3.
      apply mbind_requests; [repeat constructor|]. intros _ w4.
      apply mbind_requests; [repeat constructor|]. intros _ w5.
      apply mbind_requests; [constructor|]. intros df w6.
      apply mbind_requests; [repeat constructor|]. intros _ w7.
      apply mbind_requests; [repeat constructor|]. intros _ w8.
      constructor.
    + intros df w2. destruct dmap; [|constructor].
      apply mbind_requests; [repeat constructor|]. intros _ w3.
      apply mbind_requests; [destruct df; constructor|]. intros df' w4.
      apply mbind_requests; [constructor|]. intros mapp w5.
      constructor.
  - unfold main. fold request_date.
    unfold mbind, st_title, st_write, st_dataframe, emit, lift, ret, raise.
    destruct (retrieve_data_from_wyoming request_data request_date stations w)
      as [[r w'] t].
    destruct r as [d|e]; [|reflexivity].
    destruct (calculate_stability lib d station_to_location) as [df|e];
      [|simpl; rewrite !filter_app; simpl; rewrite !app_nil_r; reflexivity].
    destruct dmap; simpl.
    + destruct (mapplot df); simpl; rewrite !filter_app; simpl;
        rewrite ?app_nil_r; reflexivity.
    + rewrite !filter_app. simpl. rewrite ?app_nil_r. reflexivity.
Qed.

(** C8 fails in the program: with the first checkbox clear and the second
    ticked, [main] reads its local variable [df] before any assignment and
    the run ends with [UnboundLocalError], after the title and one line of
    text, whatever the archive, the library and the clock. *)
Theorem map_step_reads_unbound_df :
  forall (World : Type)
         (request_data : datetime -> string -> World -> result Sounding * World)
         (lib : MetPy) (now : datetime) (w : World),
    main request_data lib now false true w
    = (Raise (UnboundLocalError "df"), w,
       [EvTitle "Automated System for Determining Atmospheric Stability (ASDAS)";
        EvWrite "Displaying maps"]).
Proof. reflexivity. Qed.

(** With the second checkbox ticked no run completes: past the unbound [df]
    there is the call of [folium_static], a name the file does not define. *)
Lemma map_step_never_completes :
  forall (World : Type)
         (request_data : datetime -> string -> World -> result Sounding * World)
         (lib : MetPy) (now : datetime) (on : bool) (w : World),
    exists e, fst (fst (main request_data lib now on true w)) = Raise e.
Proof.
  intros World request_data lib now on w. unfold main.
  unfold mbind, st_title, st_write, st_dataframe, emit, lift, ret, raise.
  destruct on; [|simpl; eauto].
  destruct (retrieve_data_from_wyoming request_data request_date stations w)
    as [[[d|e] w'] t]; [|simpl; eauto].
  destruct (calculate_stability lib d station_to_location) as [df|e];
    [|simpl; eauto].
  simpl. destruct (mapplot df); simpl; eauto.
Qed.

(** * Further properties of the program *)

(** ** The classifier *)

Lemma gt_int_weaken (x : pyfloat) (n m : Z) :
  (n <= m)%Z -> gt_int x m = true -> gt_int x n = true.
Proof.
  intros Hnm. destruct x as [q| | |]; simpl; auto.
  rewrite !Qltb_lt. intro H. eapply Qle_lt_trans; [|exact H].
  rewrite <- Zle_Qle. assumption.
Qed.

Lemma index_criteria_four (c k l s : pyfloat) :
  In (index_criteria c k l s)
    [Stable; WeaklyUnstable; ModeratelyUnstable; StronglyUnstable].
Proof.
  unfold index_criteria, Stable, WeaklyUnstable, ModeratelyUnstable,
    StronglyUnstable.
  repeat match goal with
         | |- context [if ?b then _ else _] => destruct b
         end; simpl; auto.
Qed.

(** X1. Whatever its inputs, NaN and infinities included, the classifier
    returns one of the four categories, and any category other than stable
    requires cape > 100 and K-Index > 0: a missing CAPE or K-Index gives
    stable. *)
Theorem index_criteria_range :
  forall c k l s : pyfloat,
    In (index_criteria c k l s)
      [Stable; WeaklyUnstable; ModeratelyUnstable; StronglyUnstable]
    /\ (gt_int c 100 = false \/ gt_int k 0 = false ->
        index_criteria c k l s = Stable).
Proof.
  intros c k l s. split.
  - apply index_criteria_four.
  - intros H. unfold index_criteria, Stable.
    assert (gt_int c 100 && gt_int k 0 = false) as E3
        by (apply andb_false_iff; exact H).
    assert (gt_int c 1000 && gt_int k 20 = false) as E2.
    { apply andb_false_iff. destruct H as [H|H]; [left|right];
        apply not_true_is_false; intro T;
        [apply (gt_int_weaken c 100 1000) in T | apply (gt_int_weaken k 0 20) in T];
        try lia; congruence. }
    assert (gt_int c 2500 && gt_int k 30 = false) as E1.
    { apply andb_false_iff. destruct H as [H|H]; [left|right];
        apply not_true_is_false; intro T;
        [apply (gt_int_weaken c 100 2500) in T | apply (gt_int_weaken k 0 30) in T];
        try lia; congruence. }
    rewrite E1, E2, E3. reflexivity.
Qed.

Lemma index_criteria_range_witness :
  (gt_int NaN 100 = false \/ gt_int PInf 0 = false)
  /\ index_criteria NaN PInf NInf NInf = Stable.
Proof.
  split; [left; reflexivity|].
  apply (proj2 (index_criteria_range NaN PInf NInf NInf)).
  left. reflexivity.
Defined.

(** X2. The classifier is monotone: on finite values, a larger CAPE, a
    larger K-Index, a lower Lifted Index and a lower Showalter Index never
    give a lower category. *)
Theorem index_criteria_monotone :
  forall c k l s c' k' l' s' : Q,
    (c <= c')%Q -> (k <= k')%Q -> (l' <= l)%Q -> (s' <= s)%Q ->
    (rank (index_criteria (Fin c) (Fin k) (Fin l) (Fin s))
     <= rank (index_criteria (Fin c') (Fin k') (Fin l') (Fin s')))%nat.
Proof.
  intros c k l s c' k' l' s' Hc Hk Hl Hs.
  unfold index_criteria.
  pose proof (tier_iff c k l 2500 30 (-5)) as A1.
  pose proof (tier_iff c k l 1000 20 (-3)) as A2.
  pose proof (tier_iff c k s 100 0 0) as A3.
  pose proof (tier_false_iff c' k' l' 2500 30 (-5)) as B1.
  pose proof (tier_false_iff c' k' l' 1000 20 (-3)) as B2.
  pose proof (tier_false_iff c' k' s' 100 0 0) as B3.
  assert (forall (a b d : Z) (x x' : Q),
             (x' <= x)%Q ->
             (inject_Z a < c /\ inject_Z b < k /\ x < inject_Z d)%Q ->
             (inject_Z a < c' /\ inject_Z b < k' /\ x' < inject_Z d)%Q) as Up.
  { intros a b d x x' Hx (H1 & H2 & H3). repeat split.
    - eapply Qlt_le_trans; eauto.
    - eapply Qlt_le_trans; eauto.
    - eapply Qle_lt_trans; eauto. }
  destruct (gt_int (Fin c) 2500 && gt_int (Fin k) 30 && lt_int (Fin l) (-5))
    eqn:E1;
    destruct (gt_int (Fin c) 1000 && gt_int (Fin k) 20 && lt_int (Fin l) (-3))
      eqn:E2;
    destruct (gt_int (Fin c) 100 && gt_int (Fin k) 0 && lt_int (Fin s) 0)
      eqn:E3;
    destruct (gt_int (Fin c') 2500 && gt_int (Fin k') 30 && lt_int (Fin l') (-5))
      eqn:E1';
    destruct (gt_int (Fin c') 1000 && gt_int (Fin k') 20 && lt_int (Fin l') (-3))
      eqn:E2';
    destruct (gt_int (Fin c') 100 && gt_int (Fin k') 0 && lt_int (Fin s') 0)
      eqn:E3';
    cbn; try lia; exfalso;
    solve [ apply (proj1 B1 eq_refl), (Up _ _ _ l l' Hl), A1; reflexivity
          | apply (proj1 B2 eq_refl), (Up _ _ _ l l' Hl), A2; reflexivity
          | apply (proj1 B3 eq_refl), (Up _ _ _ s s' Hs), A3; reflexivity ].
Qed.

Lemma index_criteria_monotone_witness :
  (rank (index_criteria (Fin 1500) (Fin 25) (Fin (-4)) (Fin 1))
   <= rank (index_criteria (Fin 2600) (Fin 31) (Fin (-6)) (Fin 1)))%nat.
Proof.
  apply index_criteria_monotone; discriminate.
Defined.

(** ** Rounding before classification *)

Lemma round_half_even_cases (q : Q) :
  let n := Qnum q in
  let d := QDen q in
  let z := round_half_even q in
  (2 * (n - z * d) < d /\ - d < 2 * (n - z * d))%Z
  \/ (2 * (n - z * d) = d /\ Z.even z = true)%Z
  \/ (2 * (n - z * d) = - d /\ Z.even z = true)%Z.
Proof.
  intros n d z. subst z. unfold round_half_even. fold n d.
  assert (0 < d)%Z as Hd by (subst d; lia).
  pose proof (Z.div_mod n d ltac:(lia)) as Hdm.
  pose proof (Z.mod_pos_bound n d Hd) as Hr.
  set (f := (n / d)%Z) in *. set (r := (n mod d)%Z) in *.
  destruct (Z.compare_spec (2 * r) d) as [E|E|E].
  - destruct (Z.even f) eqn:Ef.
    + right. left. split; [nia | assumption].
    + right. right. split; [nia|].
      rewrite Z.even_add. rewrite Ef. reflexivity.
  - left. nia.
  - left. nia.
Qed.

Lemma round0_idempotent (x : pyfloat) : round0 (round0 x) = round0 x.
Proof.
  destruct x as [q| | |]; try reflexivity.
  cbn [round0]. generalize (round_half_even q). intro z.
  unfold round_half_even, inject_Z. cbn [Qnum Qden].
  rewrite Z.div_1_r, Z.mod_1_r. reflexivity.
Qed.

(** X3. [round(x, 0)] stores a whole number within one half of the value:
    the CAPE and the K-Index of a row are whole numbers that differ from
    the library's by at most 0.5, and rounding a stored value again changes
    nothing. *)
Theorem rounding_error_bounds :
  forall q : Q,
    exists z : Z,
      round0 (Fin q) = Fin (inject_Z z)
      /\ (q - (1 # 2) <= inject_Z z)%Q /\ (inject_Z z <= q + (1 # 2))%Q
      /\ round0 (round0 (Fin q)) = round0 (Fin q).
Proof.
  intro q. exists (round_half_even q). split; [reflexivity|].
  assert (round0 (round0 (Fin q)) = round0 (Fin q)) as Hid
      by apply round0_idempotent.
  cut ((q - (1 # 2) <= inject_Z (round_half_even q))%Q
       /\ (inject_Z (round_half_even q) <= q + (1 # 2))%Q); [tauto|].
  clear Hid.
  pose proof (round_half_even_cases q) as H. cbv zeta in H.
  set (z := round_half_even q) in *. clearbody z.
  destruct q as [n d]. unfold Qle, Qminus, Qplus, Qopp, inject_Z.
  cbn [Qnum Qden] in *. rewrite ?Pos2Z.inj_mul.
  split; nia.
Qed.

Lemma round_half_even_gt (q : Q) (n : Z) :
  Z.even n = true ->
  (n < round_half_even q <-> (2 * n + 1) * QDen q < 2 * Qnum q)%Z.
Proof.
  intro Hn.
  pose proof (round_half_even_cases q) as H. cbv zeta in H.
  assert (0 < QDen q)%Z as Hd by lia.
  apply Z.even_spec in Hn. destruct Hn as [m ->].
  destruct H as [H|[[H He]|[H He]]].
  - split; nia.
  - apply Z.even_spec in He. destruct He as [m' He]. rewrite He in *.
    split; nia.
  - apply Z.even_spec in He. destruct He as [m' He]. rewrite He in *.
    split; nia.
Qed.

Lemma round_half_even_lt (q : Q) (n : Z) :
  Z.even n = true ->
  (round_half_even q < n <-> 2 * Qnum q < (2 * n - 1) * QDen q)%Z.
Proof.
  intro Hn.
  pose proof (round_half_even_cases q) as H. cbv zeta in H.
  assert (0 < QDen q)%Z as Hd by lia.
  apply Z.even_spec in Hn. destruct Hn as [m ->].
  destruct H as [H|[[H He]|[H He]]].
  - split; nia.
  - apply Z.even_spec in He. destruct He as [m' He]. rewrite He in *.
    split; nia.
  - apply Z.even_spec in He. destruct He as [m' He]. rewrite He in *.
    split; nia.
Qed.

(** A rounded value exceeds an even threshold exactly when the value
    exceeds the threshold by more than one half. *)
Lemma gt_int_round0 (q : Q) (n : Z) :
  Z.even n = true ->
  gt_int (round0 (Fin q)) n = true <-> (inject_Z n + (1 # 2) < q)%Q.
Proof.
  intro Hn. cbn [round0 gt_int]. rewrite Qltb_lt.
  unfold Qlt, Qplus, inject_Z. cbn [Qnum Qden].
  pose proof (round_half_even_gt q n Hn) as H.
  set (z := round_half_even q) in *. clearbody z.
  destruct q as [a d]. cbn [Qnum Qden] in *. rewrite ?Pos2Z.inj_mul. lia.
Qed.

Lemma tier_rounded_iff (c k : Q) (i : pyfloat) (a b d : Z) :
  Z.even a = true -> Z.even b = true ->
  gt_int (round0 (Fin c)) a && gt_int (round0 (Fin k)) b && lt_int i d = true
  <-> (inject_Z a + (1 # 2) < c)%Q /\ (inject_Z b + (1 # 2) < k)%Q
      /\ lt_int i d = true.
Proof.
  intros Ha Hb.
  rewrite !andb_true_iff, (gt_int_round0 c a Ha), (gt_int_round0 k b Hb).
  tauto.
Qed.

(** X4. The CAPE and the K-Index are rounded before the category is
    decided, so the thresholds met by the library's own values are shifted
    by one half: with the stored Lifted Index [l] and Showalter Index [s],
    a station is strongly unstable exactly when its CAPE exceeds 2500.5,
    its K-Index exceeds 30.5 and [l < -5] (a CAPE of 2500.4 is not enough);
    likewise 1000.5 and 20.5 for the second tier, 100.5 and 0.5 for the
    third. *)
Theorem classification_on_rounded_values :
  forall (c k : Q) (l s : pyfloat),
    let r := index_criteria (round0 (Fin c)) (round0 (Fin k)) l s in
    let tier1 :=
      ((5001 # 2) < c)%Q /\ ((61 # 2) < k)%Q /\ lt_int l (-5) = true in
    let tier2 :=
      ((2001 # 2) < c)%Q /\ ((41 # 2) < k)%Q /\ lt_int l (-3) = true in
    let tier3 :=
      ((201 # 2) < c)%Q /\ ((1 # 2) < k)%Q /\ lt_int s 0 = true in
    (r = StronglyUnstable <-> tier1)
    /\ (r = ModeratelyUnstable <-> ~ tier1 /\ tier2)
    /\ (r = WeaklyUnstable <-> ~ tier1 /\ ~ tier2 /\ tier3)
    /\ (r = Stable <-> ~ tier1 /\ ~ tier2 /\ ~ tier3).
Proof.
  intros c k l s r tier1 tier2 tier3.
  assert (E1 := tier_rounded_iff c k l 2500 30 (-5) eq_refl eq_refl).
  assert (E2 := tier_rounded_iff c k l 1000 20 (-3) eq_refl eq_refl).
  assert (E3 := tier_rounded_iff c k s 100 0 0 eq_refl eq_refl).
  assert (tier1 <-> (inject_Z 2500 + (1 # 2) < c)%Q
                    /\ (inject_Z 30 + (1 # 2) < k)%Q
                    /\ lt_int l (-5) = true) as Q1
      by (subst tier1; unfold Qlt; cbn -[lt_int]; tauto).
  assert (tier2 <-> (inject_Z 1000 + (1 # 2) < c)%Q
                    /\ (inject_Z 20 + (1 # 2) < k)%Q
                    /\ lt_int l (-3) = true) as Q2
      by (subst tier2; unfold Qlt; cbn -[lt_int]; tauto).
  assert (tier3 <-> (inject_Z 100 + (1 # 2) < c)%Q
                    /\ (inject_Z 0 + (1 # 2) < k)%Q
                    /\ lt_int s 0 = true) as Q3
      by (subst tier3; unfold Qlt; cbn -[lt_int]; tauto).
  rewrite <- Q1 in E1. rewrite <- Q2 in E2. rewrite <- Q3 in E3.
  clear Q1 Q2 Q3. clearbody tier1 tier2 tier3.
  unfold StronglyUnstable, ModeratelyUnstable, WeaklyUnstable, Stable.
  subst r. unfold index_criteria.
  destruct (gt_int (round0 (Fin c)) 2500 && gt_int (round0 (Fin k)) 30
            && lt_int l (-5));
    destruct (gt_int (round0 (Fin c)) 1000 && gt_int (round0 (Fin k)) 20
              && lt_int l (-3));
    destruct (gt_int (round0 (Fin c)) 100 && gt_int (round0 (Fin k)) 0
              && lt_int s 0);
    repeat split; intros; try discriminate; try reflexivity;
      intuition (try discriminate; try congruence).
Qed.

(** ** Rows of the result *)



(** X6. In [calculate_stability] the loop that takes magnitudes changes
    nothing: every value the first loop stores is a magnitude already, so
    on any frame that loop returns, each column either is empty or raises
    [AttributeError] at its first cell and is passed over. *)
Theorem magnitude_loop_is_noop_in_pipeline :
  forall (lib : MetPy) (dfs : Sounding) (data : dict Sounding)
         (stl : dict string) (df1 : IndexFrame),
    stability_loop lib dfs data (new_frame stl) = Ok df1 ->
    magnitude_loop columns df1 df1 = Ok df1.
Proof.
  intros lib dfs data stl df1 H. apply magnitude_loop_id.
  eapply stability_loop_computed. exact H.
Qed.

Lemma magnitude_loop_is_noop_in_pipeline_witness :
  exists df1,
    stability_loop test_lib (station_data located_data) located_data
      (new_frame station_to_location) = Ok df1
    /\ List.length df1 = 29%nat
    /\ magnitude_loop columns df1 df1 = Ok df1.
Proof.
  destruct (stability_loop test_lib (station_data located_data) located_data
              (new_frame station_to_location)) as [df1|e] eqn:E;
    [|vm_compute in E; discriminate].
  exists df1. split; [reflexivity|].
  split; [vm_compute in E; inversion E; reflexivity|].
  apply (magnitude_loop_is_noop_in_pipeline test_lib
           (station_data located_data) located_data station_to_location).
  exact E.
Defined.

(** ** The magnitude loop in general *)

Lemma mapM_getitem_column (i : string) (df : IndexFrame) :
  In i columns ->
  mapM (fun lr : label * row => getitem (snd lr) i) df
  = Ok (map (fun lr => cell_of (snd lr) i) df).
Proof.
  intro Hi. induction df as [|[l r] df IH]; simpl.
  - reflexivity.
  - unfold cell_of at 1. destruct (getitem_column i r Hi) as [c ->].
    rewrite IH. reflexivity.
Qed.

Lemma mapM_get_magnitude (col : list cell) :
  mapM get_magnitude col
  = if forallb is_quantity col then Ok (map magnitude_of col)
    else Raise AttributeError.
Proof.
  induction col as [|c col IH]; simpl.
  - reflexivity.
  - destruct c; simpl; try reflexivity.
    rewrite IH. destruct (forallb is_quantity col); reflexivity.
Qed.

Lemma column_cells_quantities (i : string) (df : IndexFrame) :
  forallb is_quantity (map (fun lr => cell_of (snd lr) i) df)
  = column_is_quantities i df.
Proof.
  unfold column_is_quantities.
  induction df as [|lr df IH]; simpl; [reflexivity|].
  rewrite IH. reflexivity.
Qed.

Lemma set_column_map (df : IndexFrame) (f : label * row -> row)
  (g : label * row -> cell) (i : string) :
  set_column (map (fun lr => (fst lr, f lr)) df) i (map g df)
  = map (fun lr => (fst lr, setitem (f lr) i (g lr))) df.
Proof.
  unfold set_column. induction df as [|lr df IH]; simpl.
  - reflexivity.
  - rewrite IH. reflexivity.
Qed.

Lemma magnitude_loop_strips (cols : list string) (df : IndexFrame) :
  incl cols columns ->
  forall f : label * row -> row,
    magnitude_loop cols df (map (fun lr => (fst lr, f lr)) df)
    = Ok (map (fun lr => (fst lr, fold_left (strip_column df (snd lr)) cols (f lr)))
            df).
Proof.
  induction cols as [|i cols IH]; intros Hincl f.
  - reflexivity.
  - assert (In i columns) as Hi by (apply Hincl; left; reflexivity).
    assert (incl cols columns) as Hincl'
        by (intros x Hx; apply Hincl; right; assumption).
    cbn [magnitude_loop fold_left].
    rewrite (mapM_getitem_column i df Hi), bind_ret, mapM_get_magnitude.
    rewrite column_cells_quantities.
    unfold strip_column at 2.
    destruct (column_is_quantities i df) eqn:Eq.
    + rewrite map_map, set_column_map.
      rewrite (IH Hincl' (fun lr => setitem (f lr) i (magnitude_of (cell_of (snd lr) i)))).
      reflexivity.
    + apply (IH Hincl' f).
Qed.

(** X7. The magnitude loop never raises and keeps the labels and the number
    of rows.  A column is replaced by its magnitudes exactly when every one
    of its cells is a quantity; a single cell without [.magnitude], such as
    the NaN of a station without data, leaves the whole column as it was,
    quantities included. *)
Theorem magnitude_loop_column_wise :
  forall df : IndexFrame,
    magnitude_loop columns df df
    = Ok (map (fun lr => (fst lr, fold_left (strip_column df (snd lr)) columns (snd lr)))
            df)
    /\ (forall i l r q,
          In i columns -> In (l, r) df ->
          column_is_quantities i df = false ->
          getitem r i = Ok (CQuantity q) ->
          forall df', magnitude_loop [i] df df = Ok df' -> In (l, r) df')
    /\ (forall i,
          In i columns -> column_is_quantities i df = true ->
          magnitude_loop [i] df df
          = Ok (map (fun lr => (fst lr,
                                setitem (snd lr) i (magnitude_of (cell_of (snd lr) i))))
                  df)).
Proof.
  intro df.
  assert (map (fun lr : label * row => (fst lr, snd lr)) df = df) as Hid.
  { rewrite <- (map_id df) at 2. apply map_ext. intros [l r]. reflexivity. }
  split; [|split].
  - rewrite <- Hid at 2.
    apply (magnitude_loop_strips columns df (incl_refl _) snd).
  - intros i l r q Hi Hin Hcol _ df' H.
    rewrite <- Hid in H at 2.
    rewrite (magnitude_loop_strips [i] df) in H
      by (intros x [<-|[]]; assumption).
    inversion H; subst df'. clear H.
    apply in_map_iff. exists (l, r). split; [|assumption].
    cbn [fold_left fst snd]. unfold strip_column. rewrite Hcol. reflexivity.
  - intros i Hi Hcol.
    rewrite <- Hid at 2.
    rewrite (magnitude_loop_strips [i] df) by (intros x [<-|[]]; assumption).
    f_equal. apply map_ext. intros [l r]. cbn [fold_left fst snd].
    unfold strip_column. rewrite Hcol. reflexivity.
Qed.

(** In the mixed frame the CAPE column becomes magnitudes and the K-Index
    column keeps its quantity. *)
Lemma magnitude_loop_column_wise_witness :
  magnitude_loop ["CAPE"] mixed_frame mixed_frame
  = Ok [(("WIII", "Jakarta"),
         mkRow (CFloat NaN) (CFloat NaN) (CFloat NaN) (CFloat (Fin 3000))
           (CQuantity (mkQuantity (Fin 3000))) (CFloat NaN) (CFloat NaN));
        (("WIMM", "Medan"),
         mkRow (CFloat NaN) (CFloat NaN) (CFloat NaN) (CFloat (Fin 3000))
           (CFloat NaN) (CFloat NaN) (CFloat NaN))]
  /\ (forall df',
        magnitude_loop ["K-Index"] mixed_frame mixed_frame = Ok df' ->
        In (("WIII", "Jakarta"),
            mkRow (CFloat NaN) (CFloat NaN) (CFloat NaN)
              (CQuantity (mkQuantity (Fin 3000)))
              (CQuantity (mkQuantity (Fin 3000))) (CFloat NaN) (CFloat NaN))
          df').
Proof.
  destruct (magnitude_loop_column_wise mixed_frame) as (_ & H2 & H3).
  split.
  - rewrite (H3 "CAPE"); [reflexivity | | reflexivity].
    unfold columns. simpl. tauto.
  - apply (H2 "K-Index" _ _ (mkQuantity (Fin 3000))).
    + unfold columns. simpl. tauto.
    + left. reflexivity.
    + reflexivity.
    + reflexivity.
Defined.

(** ** Station metadata *)

Lemma where_station_drop_duplicates_from (df : Sounding) (key : string) :
  forall seen,
    where_station (drop_duplicates_from seen df) key
    = if existsb (String.eqb key) seen then []
      else firstn 1 (where_station df key).
Proof.
  unfold where_station.
  induction df as [|r df IH]; intro seen; simpl.
  - destruct (existsb _ seen); reflexivity.
  - destruct (existsb (String.eqb (station r)) seen) eqn:Eseen.
    + rewrite IH. destruct (String.eqb_spec (station r) key) as [<-|Hne].
      * rewrite Eseen. reflexivity.
      * reflexivity.
    + simpl. rewrite IH. simpl.
      destruct (String.eqb_spec (station r) key) as [<-|Hne].
      * rewrite String.eqb_refl, Eseen. simpl. reflexivity.
      * destruct (String.eqb_spec key (station r)) as [E|_]; [congruence|].
        simpl. reflexivity.
Qed.

Lemma drop_duplicates_from_NoDup (df : Sounding) :
  forall seen,
    NoDup (map station (drop_duplicates_from seen df))
    /\ forall s, In s (map station (drop_duplicates_from seen df)) ->
                 ~ In s seen /\ In s (map station df).
Proof.
  induction df as [|r df IH]; intro seen; simpl.
  - split; [constructor | intros s []].
  - destruct (existsb (String.eqb (station r)) seen) eqn:Eseen.
    + destruct (IH seen) as [H1 H2]. split; [assumption|].
      intros s Hs. destruct (H2 s Hs). auto.
    + destruct (IH (station r :: seen)) as [H1 H2]. simpl. split.
      * constructor; [|assumption]. intro Hin. apply H2 in Hin.
        destruct Hin as [Hn _]. apply Hn. left. reflexivity.
      * intros s [<-|Hs].
        -- split; [|auto]. intro Hin.
           assert (existsb (String.eqb (station r)) seen = true) as T;
             [|congruence].
           apply existsb_exists. exists (station r). split; [assumption|].
           apply String.eqb_refl.
        -- apply H2 in Hs. destruct Hs as [Hn Hi]. split; [|auto].
           intro Hin. apply Hn. right. assumption.
Qed.

(** X8. [drop_duplicates(['station'])] keeps one row per station code, the
    first: after it no code occurs twice, and the rows of a station looked
    up in the result are the first row carrying its code in the original
    frame, or none if there is none. *)
Theorem drop_duplicates_keeps_first :
  forall (df : Sounding) (key : string),
    NoDup (map station (drop_duplicates df))
    /\ where_station (drop_duplicates df) key = firstn 1 (where_station df key)
    /\ (forall s, In s (map station (drop_duplicates df)) <-> In s (map station df)).
Proof.
  intros df key. unfold drop_duplicates.
  destruct (drop_duplicates_from_NoDup df []) as [H1 H2].
  split; [exact H1|]. split.
  - apply (where_station_drop_duplicates_from df key []).
  - intro s. split; [intro Hs; apply (H2 s Hs)|].
    intro Hs. apply in_map_iff in Hs. destruct Hs as (r & <- & Hr).
    assert (where_station df (station r) <> []) as Hne.
    { unfold where_station. intro E.
      assert (In r (filter (fun r0 => String.eqb (station r0) (station r)) df))
        as Hin by (apply filter_In; split; [assumption | apply String.eqb_refl]).
      rewrite E in Hin. destruct Hin. }
    pose proof (where_station_drop_duplicates_from df (station r) []) as E.
    simpl in E.
    destruct (where_station df (station r)) as [|r0 rest] eqn:Ew; [congruence|].
    simpl in E.
    assert (In r0 (where_station (drop_duplicates_from [] df) (station r)))
      as Hin by (rewrite E; left; reflexivity).
    unfold where_station in Hin. apply filter_In in Hin.
    destruct Hin as [Hin Heq]. apply String.eqb_eq in Heq.
    apply in_map_iff. exists r0. auto.
Qed.

Lemma where_station_none (df : Sounding) (key : string) :
  (forall r, In r df -> station r <> key) -> where_station df key = [].
Proof.
  unfold where_station. induction df as [|r df IH]; simpl; intro H.
  - reflexivity.
  - destruct (String.eqb_spec (station r) key) as [E|_].
    + destruct (H r (or_introl eq_refl) E).
    + apply IH. intros r' Hr'. apply H. auto.
Qed.

Lemma where_station_all (df : Sounding) (key : string) :
  (forall r, In r df -> station r = key) -> where_station df key = df.
Proof.
  unfold where_station. induction df as [|r df IH]; simpl; intro H.
  - reflexivity.
  - rewrite (H r (or_introl eq_refl)), String.eqb_refl.
    f_equal. apply IH. intros r' Hr'. apply H. auto.
Qed.

Lemma where_station_concat (data : dict Sounding) (key : string)
  (value : Sounding) :
  NoDup (dict_keys data) ->
  (forall k v r, In (k, v) data -> In r v -> station r = k) ->
  In (key, value) data ->
  where_station (List.concat (dict_values data)) key = value.
Proof.
  unfold dict_keys, dict_values, where_station.
  induction data as [|[k0 v0] data IH]; simpl; intros Hnd Hlab Hin.
  - contradiction.
  - inversion Hnd as [|? ? Hnotin Hnd']; subst.
    rewrite filter_app.
    destruct Hin as [E|Hin].
    + inversion E; subst k0 v0.
      fold (where_station value key).
      rewrite where_station_all by (intros r Hr; apply (Hlab key value); auto).
      fold (where_station (List.concat (map snd data)) key).
      rewrite where_station_none; [apply app_nil_r|].
      intros r Hr Er. apply in_concat in Hr. destruct Hr as (v & Hv & Hrv).
      apply in_map_iff in Hv. destruct Hv as ([k' v'] & Ev & Hv). simpl in Ev.
      subst v'. apply Hnotin. apply in_map_iff. exists (k', v). split; [|assumption].
      simpl. rewrite <- Er. symmetry. apply (Hlab k' v); auto.
    + assert (k0 <> key) as Hne.
      { intros ->. apply Hnotin. apply in_map_iff. exists (key, value). auto. }
      fold (where_station v0 key).
      rewrite where_station_none.
      * simpl. apply IH; auto. intros k v r Hkv Hr. apply (Hlab k v); auto.
      * intros r Hr Er. apply Hne. rewrite <- Er. symmetry.
        apply (Hlab k0 v0); auto.
Qed.

Lemma item0_firstn {A B : Type} (f : A -> B) (l : list A) :
  item0 (map f (firstn 1 l)) = item0 (map f l).
Proof. destruct l; reflexivity. Qed.

(** X9. When every retrieved frame carries the code it was asked for, the
    time, latitude and longitude [calculate_stability] reads for a station
    are those of the first level of that station's own sounding. *)
Theorem station_metadata_from_own_sounding :
  forall (data : dict Sounding) (key : string) (value : Sounding),
    NoDup (dict_keys data) ->
    (forall k v r, In (k, v) data -> In r v -> station r = k) ->
    In (key, value) data ->
    where_station (station_data data) key = firstn 1 value
    /\ station_latitude data key = item0 (map latitude value)
    /\ station_longitude data key = item0 (map longitude value)
    /\ item0 (map time (where_station (station_data data) key))
       = item0 (map time value).
Proof.
  intros data key value Hnd Hlab Hin.
  assert (where_station (station_data data) key = firstn 1 value) as E.
  { unfold station_data, drop_duplicates.
    rewrite (where_station_drop_duplicates_from _ key []). simpl.
    rewrite (where_station_concat data key value); auto. }
  unfold station_latitude, station_longitude. rewrite E.
  repeat split; apply item0_firstn.
Qed.

Lemma station_metadata_from_own_sounding_witness :
  station_latitude located_data "WIII" = Ok (Fin (-61 # 10))
  /\ station_longitude located_data "WITT" = item0 (map longitude aceh_unlocated).
Proof.
  assert (NoDup (dict_keys located_data)) as Hnd.
  { repeat constructor; simpl; intuition discriminate. }
  assert (forall k v r, In (k, v) located_data -> In r v -> station r = k) as Hlab.
  { intros k v r [E|[E|[]]] Hr; inversion E; subst k v;
      vm_compute in Hr; intuition (subst; reflexivity). }
  split.
  - destruct (station_metadata_from_own_sounding located_data "WIII" jakarta
                Hnd Hlab (or_introl eq_refl)) as (_ & H & _).
    exact H.
  - destruct (station_metadata_from_own_sounding located_data "WITT"
                aceh_unlocated Hnd Hlab (or_intror (or_introl eq_refl)))
      as (_ & _ & H & _).
    exact H.
Defined.

(** X10. If no retrieved row carries the code of a station of the mapping,
    the lookup of its time finds no row: its computation raises
    [IndexError] once the parcel profile is computed, and with it the whole
    run. *)
Theorem unlabelled_station_aborts_run :
  forall (lib : MetPy) (before after : dict Sounding) (key : string)
         (l0 : level) (value : Sounding) (stl : dict string)
         (profile : list pyfloat),
    let data := before ++ (key, l0 :: value) :: after in
    (forall r, In r (List.concat (dict_values data)) -> station r <> key) ->
    (forall k v, In (k, v) before ->
       exists r, station_values lib (station_data data) k v = Ok r) ->
    parcel_profile lib (map pressure (l0 :: value)) (temperature l0) (dewpoint l0)
    = Ok profile ->
    station_values lib (station_data data) key (l0 :: value) = Raise IndexError
    /\ calculate_stability lib data stl = Raise IndexError.
Proof.
  intros lib before after key l0 value stl profile data Hno Hbefore Ep.
  assert (station_values lib (station_data data) key (l0 :: value)
          = Raise IndexError) as E.
  { unfold station_values. simpl. simpl in Ep. rewrite Ep. simpl.
    unfold station_data, drop_duplicates.
    rewrite (where_station_drop_duplicates_from _ key []). simpl.
    rewrite (where_station_none _ key Hno). reflexivity. }
  split; [exact E|].
  apply (calculate_stability_raise lib before after key (l0 :: value) stl);
    assumption.
Qed.

Lemma unlabelled_station_aborts_run_witness :
  calculate_stability test_lib [("WIII", jakarta_unnamed)] station_to_location
  = Raise IndexError.
Proof.
  destruct jakarta_unnamed as [|l0 value] eqn:E; [discriminate|].
  rewrite <- E.
  assert (exists profile,
             parcel_profile test_lib (map pressure (l0 :: value))
               (temperature l0) (dewpoint l0) = Ok profile) as [profile Ep]
      by (eexists; reflexivity).
  rewrite E.
  apply (unlabelled_station_aborts_run test_lib [] [] "WIII" l0 value
           station_to_location profile).
  - rewrite <- E. intros r Hr. vm_compute in Hr.
    intuition (subst; discriminate).
  - intros k v [].
  - exact Ep.
Defined.

(** ** Retrieval as a fold over the answers *)

Lemma dict_set_fresh {V : Type} (d : dict V) (k : string) (v : V) :
  ~ In k (dict_keys d) -> dict_set d k v = d ++ [(k, v)].
Proof.
  unfold dict_keys. induction d as [|[k0 v0] d IH]; simpl; intro H.
  - reflexivity.
  - destruct (String.eqb_spec k0 k) as [E|_]; [destruct H; auto|].
    rewrite IH; auto.
Qed.

Lemma dict_set_NoDup {V : Type} (d : dict V) (k : string) (v : V) :
  NoDup (dict_keys d) -> NoDup (dict_keys (dict_set d k v)).
Proof.
  unfold dict_keys. induction d as [|[k0 v0] d IH]; simpl; intro H.
  - repeat constructor. intros [].
  - inversion H as [|? ? Hnotin Hnd]; subst.
    destruct (String.eqb_spec k0 k) as [E|Hne]; simpl.
    + constructor; assumption.
    + constructor; [|auto]. intro Hin.
      apply (dict_set_keys d k v k0) in Hin. destruct Hin; [congruence | auto].
Qed.

Section RetrievalFold.

Context {World : Type}.
Variable request_data : datetime -> string -> World -> result Sounding * World.
Variable date : datetime.

Lemma retrieve_loop_fold (stations : list string) :
  forall (d0 : dict Sounding) (w : World),
    forallb (fun a => handled (snd a)) (answers request_data date stations w)
    = true ->
    fst (retrieve_loop request_data date stations d0 w)
    = (Ok (fold_left mapping_step (answers request_data date stations w) d0),
       snd (fst (retrieve_loop request_data date stations d0 w)))
    /\ snd (retrieve_loop request_data date stations d0 w)
       = flat_map (events_of date) (answers request_data date stations w).
Proof.
  induction stations as [|stn stations IH]; intros d0 w H.
  - split; reflexivity.
  - simpl in H. cbn [answers retrieve_loop].
    unfold mbind, try_request, request.
    destruct (request_data date stn w) as [r w1] eqn:E.
    simpl in H. apply andb_true_iff in H. destruct H as [Hr Hrest].
    destruct r as [dfori|e].
    + cbn [st_write emit ret app fst snd].
      destruct (IH (dict_set d0 stn dfori) w1 Hrest) as [H1 H2].
      destruct (retrieve_loop request_data date stations (dict_set d0 stn dfori) w1)
        as [[r' w'] t'].
      simpl in *. split; [exact H1 | rewrite H2; reflexivity].
    + destruct e; try discriminate;
        cbn [st_write emit ret app fst snd];
        destruct (IH d0 w1 Hrest) as [H1 H2];
        destruct (retrieve_loop request_data date stations d0 w1)
          as [[r' w'] t'];
        simpl in *; (split; [exact H1 | rewrite H2; reflexivity]).
Qed.

Lemma fold_mapping_fresh (l : list (string * result Sounding)) :
  forall d0 : dict Sounding,
    NoDup (dict_keys d0 ++ map fst l) ->
    fold_left mapping_step l d0 = d0 ++ fetched l.
Proof.
  induction l as [|[stn r] l IH]; intros d0 Hnd; simpl.
  - symmetry. apply app_nil_r.
  - unfold mapping_step at 2. simpl.
    assert (~ In stn (dict_keys d0)) as Hfresh.
    { intro Hin. apply NoDup_remove_2 in Hnd. apply Hnd.
      apply in_app_iff. auto. }
    assert (NoDup (dict_keys d0 ++ map fst l)) as Hnd0
        by (apply NoDup_remove_1 in Hnd; assumption).
    destruct r as [dfori|e].
    + rewrite (dict_set_fresh d0 stn dfori Hfresh).
      rewrite IH.
      * rewrite <- app_assoc. reflexivity.
      * unfold dict_keys. rewrite map_app. simpl. rewrite <- app_assoc.
        simpl. exact Hnd.
    + apply IH. exact Hnd0.
Qed.

End RetrievalFold.

(** X11. When every fetch returns or raises one of the two caught
    exceptions, the retrieval is a fold over the answers of the archive:
    the mapping holds the fetched soundings, the trace is, station by
    station, the request followed by the busy-server line ([HTTPError]) or
    the no-data line naming date and station ([ValueError]), and nothing
    else.  For distinct stations the mapping lists the fetched soundings in
    the order of the station list. *)
Theorem retrieval_is_fold_of_answers :
  forall (World : Type)
         (request_data : datetime -> string -> World -> result Sounding * World)
         (date : datetime) (stations : list string) (w : World),
    forallb (fun a => handled (snd a)) (answers request_data date stations w)
    = true ->
    fst (fst (retrieve_data_from_wyoming request_data date stations w))
    = Ok (mapping_of (answers request_data date stations w))
    /\ snd (retrieve_data_from_wyoming request_data date stations w)
       = flat_map (events_of date) (answers request_data date stations w)
    /\ (NoDup stations ->
        mapping_of (answers request_data date stations w)
        = fetched (answers request_data date stations w)).
Proof.
  intros World request_data date stations w H.
  destruct (retrieve_loop_fold request_data date stations [] w H) as [H1 H2].
  unfold retrieve_data_from_wyoming, mapping_of.
  split; [rewrite H1; reflexivity|]. split; [exact H2|].
  intro Hnd.
  rewrite (fold_mapping_fresh _ []); [reflexivity|].
  simpl. rewrite answers_stations. exact Hnd.
Qed.

Lemma retrieval_is_fold_of_answers_witness :
  fst (fst (retrieve_data_from_wyoming test_archive request_date
              ["WIMM"; "WIII"; "WIMG"; "WITT"] 0%nat))
  = Ok [("WIII", jakarta); ("WITT", aceh_unlocated)]
  /\ snd (retrieve_data_from_wyoming test_archive request_date
            ["WIMM"; "WIII"; "WIMG"; "WITT"] 0%nat)
     = [EvRequest request_date "WIMM";
        EvWrite "Oops, it looks like the server is busy. Hold on. Retrying to retrieve data ...";
        EvRequest request_date "WIII";
        EvRequest request_date "WIMG";
        EvWrite "No data available for 2023-10-16 00:00:00, for station WIMG";
        EvRequest request_date "WITT"].
Proof.
  destruct (retrieval_is_fold_of_answers nat test_archive request_date
              ["WIMM"; "WIII"; "WIMG"; "WITT"] 0%nat eq_refl)
    as (H1 & H2 & H3).
  split.
  - rewrite H1, H3; [reflexivity|].
    repeat constructor; simpl; intuition discriminate.
  - rewrite H2. reflexivity.
Defined.

(** X12. Whenever the retrieval returns a mapping, its keys are stations of
    the list and no key occurs twice, whatever the archive answers and
    however often a station is listed. *)
Theorem retrieved_keys_distinct :
  forall (World : Type)
         (request_data : datetime -> string -> World -> result Sounding * World)
         (date : datetime) (stations : list string) (w w' : World)
         (d : dict Sounding) (t : list event),
    retrieve_data_from_wyoming request_data date stations w = (Ok d, w', t) ->
    NoDup (dict_keys d) /\ incl (dict_keys d) stations.
Proof.
  intros World request_data date stations w w' d t.
  unfold retrieve_data_from_wyoming.
  assert (forall d0 w0 t0,
             retrieve_loop request_data date stations d0 w0 = (Ok d, w', t0) ->
             NoDup (dict_keys d0) ->
             NoDup (dict_keys d)
             /\ incl (dict_keys d) (dict_keys d0 ++ stations)) as G.
  { clear w t. induction stations as [|stn stations IH]; intros d0 w0 t0 H Hnd.
    - inversion H; subst. split; [assumption|].
      rewrite app_nil_r. apply incl_refl.
    - destruct (request_data date stn w0) as [[dfori|e] w1] eqn:E.
      + rewrite (retrieve_loop_fetched _ _ _ _ _ _ _ _ E) in H.
        destruct (retrieve_loop request_data date stations (dict_set d0 stn dfori) w1)
          as [[r w2] t2] eqn:E2.
        inversion H; subst.
        destruct (IH _ _ _ E2 (dict_set_NoDup d0 stn dfori Hnd)) as [H1 H2].
        split; [assumption|].
        intros k Hk. apply H2 in Hk. apply in_app_iff in Hk.
        apply in_app_iff. destruct Hk as [Hk|Hk].
        * apply dict_set_keys in Hk. destruct Hk as [->|Hk]; simpl; auto.
        * simpl. auto.
      + assert (e = HTTPError \/ e = ValueError) as He.
        { destruct e;
            try (rewrite (retrieve_loop_uncaught _ _ _ _ _ _ _ _ E) in H;
                 discriminate);
            auto. }
        destruct (retrieve_loop_caught _ _ stn stations d0 w0 w1 e E He)
          as [msg Em].
        rewrite Em in H.
        destruct (retrieve_loop request_data date stations d0 w1)
          as [[r w2] t2] eqn:E2.
        inversion H; subst.
        destruct (IH _ _ _ E2 Hnd) as [H1 H2].
        split; [assumption|].
        intros k Hk. apply H2 in Hk. apply in_app_iff in Hk.
        apply in_app_iff. simpl. tauto. }
  intro H. destruct (G [] w t H (NoDup_nil _)) as [H1 H2].
  split; assumption.
Qed.

Lemma retrieved_keys_distinct_witness :
  exists d w' t,
    retrieve_data_from_wyoming test_archive request_date
      ["WIII"; "WIMM"; "WIII"] 0%nat = (Ok d, w', t)
    /\ NoDup (dict_keys d) /\ incl (dict_keys d) ["WIII"; "WIMM"; "WIII"].
Proof.
  eexists. eexists. eexists. split; [vm_compute; reflexivity|].
  eapply (retrieved_keys_distinct nat test_archive request_date
            ["WIII"; "WIMM"; "WIII"] 0%nat).
  vm_compute. reflexivity.
Defined.

(** ** A run without data *)

Lemma fold_mapping_failed (l : list (string * result Sounding)) :
  (forall a, In a l -> snd a = Raise HTTPError \/ snd a = Raise ValueError) ->
  forall d0, fold_left mapping_step l d0 = d0.
Proof.
  induction l as [|a l IH]; intros H d0; simpl.
  - reflexivity.
  - rewrite IH by (intros b Hb; apply H; right; assumption).
    unfold mapping_step.
    destruct (H a (or_introl eq_refl)) as [-> | ->]; reflexivity.
Qed.

Lemma events_of_no_dataframe (date : datetime)
  (l : list (string * result Sounding)) :
  existsb is_dataframe (flat_map (events_of date) l) = false.
Proof.
  induction l as [|[stn r] l IH]; simpl.
  - reflexivity.
  - destruct r as [df|[]]; simpl; exact IH.
Qed.

(** X13. If the archive has data for no station (every fetch raises one of
    the two caught exceptions), the retrieval returns an empty mapping and
    the run with the first checkbox ticked ends with the [ValueError] of
    [pd.concat] on nothing; no table is shown. *)
Theorem run_without_data_raises :
  forall (World : Type)
         (request_data : datetime -> string -> World -> result Sounding * World)
         (lib : MetPy) (now : datetime) (dmap : bool) (w : World),
    (forall a, In a (answers request_data request_date stations w) ->
               snd a = Raise HTTPError \/ snd a = Raise ValueError) ->
    fst (fst (retrieve_data_from_wyoming request_data request_date stations w))
    = Ok []
    /\ fst (fst (main request_data lib now true dmap w)) = Raise ValueError
    /\ existsb is_dataframe (snd (main request_data lib now true dmap w))
       = false.
Proof.
  intros World request_data lib now dmap w H.
  assert (forallb (fun a => handled (snd a))
            (answers request_data request_date stations w) = true) as Hh.
  { apply forallb_forall. intros a Ha.
    destruct (H a Ha) as [-> | ->]; reflexivity. }
  destruct (retrieve_loop_fold request_data request_date stations [] w Hh)
    as [H1 H2].
  fold (retrieve_data_from_wyoming request_data request_date stations w)
    in H1, H2.
  rewrite (fold_mapping_failed _ H) in H1.
  assert (fst (fst (retrieve_data_from_wyoming request_data request_date
                      stations w)) = Ok []) as H1'
      by (rewrite H1; reflexivity).
  clear H1. rename H1' into H1.
  split; [exact H1|].
  unfold main.
  unfold mbind, st_title, st_write, st_dataframe, emit, lift, ret, raise.
  destruct (retrieve_data_from_wyoming request_data request_date stations w)
    as [[r w'] t].
  simpl in H1, H2. subst r t. simpl.
  split; [reflexivity|].
  rewrite existsb_app. rewrite events_of_no_dataframe. reflexivity.
Qed.

Lemma run_without_data_raises_witness :
  fst (fst (main empty_archive test_lib (mkdatetime 2023 10 17 6 30 0 0)
              true false 0%nat))
  = Raise ValueError.
Proof.
  apply (run_without_data_raises nat empty_archive test_lib).
  intros a Ha. vm_compute in Ha.
  repeat (destruct Ha as [<-|Ha]; [right; reflexivity|]).
  destruct Ha.
Defined.

(** ** Labels of the result *)

Lemma loc_set_labels (df : IndexFrame) (key : string) (r : row) :
  has_code key df = true -> map fst (loc_set df key r) = map fst df.
Proof.
  intro H. unfold loc_set. rewrite H. rewrite map_map. apply map_ext.
  intros [l r0]. simpl. destruct (String.eqb (fst l) key); reflexivity.
Qed.

Lemma has_code_labels (key : string) (df df' : IndexFrame) :
  map fst df = map fst df' -> has_code key df = has_code key df'.
Proof.
  intro H. unfold has_code.
  assert (forall d : IndexFrame,
             existsb (fun lr => String.eqb (fst (fst lr)) key) d
             = existsb (fun l : label => String.eqb (fst l) key) (map fst d)) as G.
  { induction d as [|lr d IH]; simpl; [reflexivity | rewrite IH; reflexivity]. }
  rewrite !G, H. reflexivity.
Qed.

Lemma stability_loop_keeps_labels (lib : MetPy) (dfs : Sounding)
  (items : dict Sounding) :
  forall df0 df1,
    (forall key, In key (dict_keys items) -> has_code key df0 = true) ->
    stability_loop lib dfs items df0 = Ok df1 ->
    map fst df1 = map fst df0.
Proof.
  induction items as [|[key value] items IH]; simpl; intros df0 df1 Hc H.
  - inversion H. reflexivity.
  - apply bind_ok in H. destruct H as (r & _ & H).
    assert (map fst (loc_set df0 key r) = map fst df0) as E
        by (apply loc_set_labels; apply Hc; auto).
    rewrite <- E. apply IH; [|assumption].
    intros k Hk. rewrite (has_code_labels k _ df0 E). apply Hc. auto.
Qed.

Lemma add_kategori_labels (df : IndexFrame) :
  forall dfk, add_kategori df = Ok dfk -> map fst dfk = map fst df.
Proof.
  unfold add_kategori. induction df as [|[l r] df IH]; simpl; intros dfk H.
  - inversion H. reflexivity.
  - destruct (row_kategori r) as [k|]; simpl in H; try discriminate.
    destruct (mapM _ df) as [dfk'|]; try discriminate.
    inversion H; subst. simpl. rewrite (IH dfk' eq_refl). reflexivity.
Qed.

Lemma dropna_labels_distinct (dfk : StabilityFrame) :
  NoDup (map fst dfk) -> NoDup (map fst (dropna dfk)).
Proof.
  unfold dropna.
  induction dfk as [|[l kr] dfk IH]; simpl; intro Hnd;
    [constructor|].
  apply NoDup_cons_iff in Hnd. destruct Hnd as [Hfresh Hrest].
  destruct (negb (isna (Lintang (values kr))) && negb (isna (Bujur (values kr))));
    simpl; [|exact (IH Hrest)].
  apply NoDup_cons_iff. split; [|exact (IH Hrest)].
  intro Hl. apply Hfresh. apply in_map_iff in Hl.
  destruct Hl as (lr & El & Hlr). apply filter_In in Hlr.
  apply in_map_iff. exists lr. tauto.
Qed.

Lemma result_labels_incl (lib : MetPy) (data : dict Sounding)
  (stl : dict string) (df : StabilityFrame) :
  (forall key, In key (dict_keys data) -> exists name, In (key, name) stl) ->
  calculate_stability lib data stl = Ok df ->
  exists dfk, map fst dfk = stl /\ df = dropna dfk.
Proof.
  intros Hkeys H.
  apply calculate_stability_stages in H.
  destruct H as (_ & df1 & dfk & E1 & Ek & ->).
  exists dfk. split; [|reflexivity].
  assert (forall key, In key (dict_keys data) ->
                      has_code key (new_frame stl) = true) as Hc.
  { intros key Hk. destruct (Hkeys key Hk) as [name Hn].
    unfold has_code. apply existsb_exists.
    exists ((key, name), nan_row). split.
    - apply new_frame_In. auto.
    - simpl. apply String.eqb_refl. }
  transitivity (map fst df1); [exact (add_kategori_labels _ _ Ek)|].
  transitivity (map fst (new_frame stl));
    [exact (stability_loop_keeps_labels lib _ data _ _ Hc E1)|].
  unfold new_frame. rewrite map_map. simpl. apply map_id.
Qed.

(** X14. When every station of the mapping is a code of the station table,
    as in [main], the result is labelled by items of the table only: each
    row carries a (code, place name) pair of the table, there are no more
    rows than the table has entries, and no label occurs twice if none does
    in the table. *)
Theorem result_labels_from_table :
  forall (lib : MetPy) (data : dict Sounding) (stl : dict string)
         (df : StabilityFrame),
    (forall key, In key (dict_keys data) -> exists name, In (key, name) stl) ->
    calculate_stability lib data stl = Ok df ->
    incl (map fst df) stl
    /\ (List.length df <= List.length stl)%nat
    /\ (NoDup stl -> NoDup (map fst df)).
Proof.
  intros lib data stl df Hkeys H.
  destruct (result_labels_incl lib data stl df Hkeys H) as (dfk & Lk & ->).
  subst stl. unfold dropna. split; [|split].
  - intros l Hl. apply in_map_iff in Hl.
    destruct Hl as (x & Ex & Hx). apply filter_In in Hx.
    apply in_map_iff. exists x. tauto.
  - rewrite length_map. apply filter_length_le.
  - intro Hnd. apply (dropna_labels_distinct dfk Hnd).
Qed.

(** Every station [main] asks for is in its table, so the labels of what
    it shows are items of the table. *)
Lemma result_labels_from_table_witness :
  (forall key, In key stations -> exists name, In (key, name) station_to_location)
  /\ exists df,
       calculate_stability test_lib located_data station_to_location = Ok df
       /\ incl (map fst df) station_to_location
       /\ (List.length df <= 29)%nat.
Proof.
  assert (forall key, In key stations ->
                      exists name, In (key, name) station_to_location) as Hall.
  { intros key Hk. unfold stations in Hk. simpl in Hk.
    repeat (destruct Hk as [<-|Hk];
            [eexists; unfold station_to_location; simpl; tauto|]).
    destruct Hk. }
  split; [exact Hall|].
  destruct (calculate_stability test_lib located_data station_to_location)
    as [df|e] eqn:E; [|vm_compute in E; discriminate].
  exists df. split; [reflexivity|].
  destruct (result_labels_from_table test_lib located_data station_to_location df)
    as (H1 & H2 & _).
  - intros key Hk. apply Hall. unfold stations. simpl in Hk. simpl.
    destruct Hk as [<-|[<-|[]]]; tauto.
  - exact E.
  - split; [exact H1 | exact H2].
Defined.

(** ** The map *)

Lemma filter_idempotent {A : Type} (p : A -> bool) (l : list A) :
  filter p (filter p l) = filter p l.
Proof.
  induction l as [|a l IH]; simpl; [reflexivity|].
  destruct (p a) eqn:E; simpl; [rewrite E, IH|]; auto.
Qed.

Lemma dropna_calculate_stability (lib : MetPy) (data : dict Sounding)
  (stl : dict string) (df : StabilityFrame) :
  calculate_stability lib data stl = Ok df -> dropna df = df.
Proof.
  intro H. apply calculate_stability_stages in H.
  destruct H as (_ & df1 & dfk & _ & _ & ->). apply filter_idempotent.
Qed.

Lemma kategori_is_classified (lib : MetPy) (data : dict Sounding)
  (stl : dict string) (df : StabilityFrame) (l : label) (kr : krow) :
  calculate_stability lib data stl = Ok df -> In (l, kr) df ->
  In (Kategori kr)
    [Stable; WeaklyUnstable; ModeratelyUnstable; StronglyUnstable].
Proof.
  intros H Hin.
  destruct (calculate_stability_rows lib data stl df H l kr Hin)
    as ((value & _ & Ev) & Hk & _).
  apply station_values_computed in Ev. destruct Ev.
  - inversion Hk. apply index_criteria_four.
  - cbv [row_kategori getitem] in Hk. simpl in Hk. inversion Hk.
    apply index_criteria_four.
Qed.

(** X15. [dropna] is idempotent, so the one [mapplot] starts with leaves
    every frame [calculate_stability] returns as it is. *)
Theorem dropna_redundant_in_mapplot :
  forall (lib : MetPy) (data : dict Sounding) (stl : dict string)
         (df : StabilityFrame),
    (forall df' : StabilityFrame, dropna (dropna df') = dropna df')
    /\ (calculate_stability lib data stl = Ok df -> dropna df = df).
Proof.
  intros lib data stl df. split.
  - intro df'. apply filter_idempotent.
  - apply dropna_calculate_stability.
Qed.

Lemma dropna_redundant_in_mapplot_witness :
  exists df,
    calculate_stability test_lib located_data station_to_location = Ok df
    /\ dropna df = df.
Proof.
  destruct (calculate_stability test_lib located_data station_to_location)
    as [df|e] eqn:E; [|vm_compute in E; discriminate].
  exists df. split; [reflexivity|].
  apply (proj2 (dropna_redundant_in_mapplot test_lib located_data
                  station_to_location df)).
  exact E.
Defined.

Lemma marker_loop_known (rows : StabilityFrame) :
  (forall l kr, In (l, kr) rows ->
     In (Kategori kr)
       [Stable; WeaklyUnstable; ModeratelyUnstable; StronglyUnstable]) ->
  forall (c : option string) (m : FoliumMap),
    exists mks,
      marker_loop rows c m
      = Ok (mkFoliumMap (location m) (zoom_start m) (markers m ++ mks) (legend m))
      /\ Forall2 marker_matches rows mks.
Proof.
  induction rows as [|[l [vals k]] rows IH]; intros Hk c m.
  - exists []. simpl. rewrite app_nil_r. destruct m. split; [reflexivity|constructor].
  - assert (forall l' kr, In (l', kr) rows ->
              In (Kategori kr)
                [Stable; WeaklyUnstable; ModeratelyUnstable; StronglyUnstable])
      as Hk' by (intros l' kr Hin; apply (Hk l'); right; assumption).
    specialize (Hk l (mkKRow vals k) (or_introl eq_refl)). simpl in Hk.
    unfold Stable, WeaklyUnstable, ModeratelyUnstable, StronglyUnstable in Hk.
    destruct Hk as [<-|[<-|[<-|[<-|[]]]]];
      cbn -[marker_loop]; cbn [marker_loop];
      unfold kgetitem, getitem; cbn -[marker_loop];
      match goal with
      | |- context [marker_loop rows ?c' ?m'] =>
          destruct (IH Hk' c' m') as (mks & E & HF); rewrite E
      end;
      cbn [location zoom_start markers legend];
      eexists; (split; [rewrite <- app_assoc; reflexivity|]);
      (constructor; [|exact HF]);
      unfold marker_matches, legend_entries; cbn;
      repeat split; tauto.
Qed.

(** X16. On a frame [calculate_stability] returns, the marker loop of
    [mapplot] never meets an unbound [color]: it returns, with one marker
    per row, in order, at the row's position, in the colour the legend
    shows for the row's category, and with the row's place name, category
    and indices in its popup.  A map [mapplot] returns for such a frame has
    exactly these markers, zoom 5 and the four-entry legend. *)
Theorem markers_match_rows :
  forall (lib : MetPy) (data : dict Sounding) (stl : dict string)
         (df : StabilityFrame),
    calculate_stability lib data stl = Ok df ->
    (forall m0 : FoliumMap,
        exists mks,
          marker_loop df None m0
          = Ok (mkFoliumMap (location m0) (zoom_start m0) (markers m0 ++ mks)
                  (legend m0))
          /\ Forall2 marker_matches df mks)
    /\ (forall m : FoliumMap,
          mapplot df = Ok m ->
          Forall2 marker_matches df (markers m)
          /\ zoom_start m = 5
          /\ legend m = legend_entries).
Proof.
  intros lib data stl df H.
  assert (forall l kr, In (l, kr) df ->
            In (Kategori kr)
              [Stable; WeaklyUnstable; ModeratelyUnstable; StronglyUnstable])
    as Hk.
  { intros l kr Hin. eapply kategori_is_classified; eauto. }
  split.
  - intro m0. apply marker_loop_known. exact Hk.
  - intros m Hm. unfold mapplot in Hm.
    rewrite (dropna_calculate_stability lib data stl df H) in Hm.
    apply bind_ok in Hm. destruct Hm as (lat & _ & Hm).
    apply bind_ok in Hm. destruct Hm as (lon & _ & Hm).
    apply bind_ok in Hm. destruct Hm as (m2 & E2 & Hm).
    destruct (marker_loop_known df Hk None (mkFoliumMap (lat, lon) 5 [] []))
      as (mks & E & HF).
    rewrite E in E2. inversion E2; subst m2. inversion Hm; subst m.
    simpl. repeat split; assumption || reflexivity.
Qed.

Lemma markers_match_rows_witness :
  exists df m,
    calculate_stability test_lib located_data station_to_location = Ok df
    /\ mapplot df = Ok m
    /\ Forall2 marker_matches df (markers m)
    /\ map color (markers m) = ["red"].
Proof.
  destruct (calculate_stability test_lib located_data station_to_location)
    as [df|e] eqn:E; [|vm_compute in E; discriminate].
  destruct (mapplot df) as [m|e] eqn:Em;
    [|vm_compute in E; inversion E; subst df; vm_compute in Em; discriminate].
  exists df, m. split; [reflexivity|]. split; [exact Em|].
  destruct (markers_match_rows test_lib located_data station_to_location df E)
    as [_ H].
  split; [apply (H m Em)|].
  vm_compute in E. inversion E; subst df. vm_compute in Em.
  inversion Em. reflexivity.
Defined.

(** X17. A row whose category is none of the four is drawn in the colour
    left over from the row before it, and if it is the first row of the
    frame [mapplot] ends with [UnboundLocalError] for [color]. *)
Theorem unknown_category_colour :
  forall (l : label) (r : krow) (rows : StabilityFrame) (c : string)
         (m : FoliumMap),
    ~ In (Kategori r)
        [Stable; WeaklyUnstable; ModeratelyUnstable; StronglyUnstable] ->
    marker_loop ((l, r) :: rows) None m = Raise (UnboundLocalError "color")
    /\ marker_loop ((l, r) :: rows) (Some c) m
       = marker_loop rows (Some c)
           (mkFoliumMap (location m) (zoom_start m)
              (markers m
               ++ [mkCircleMarker
                     (Lintang (values r), Bujur (values r)) 10 c true c
                     (mkPopup (snd l) (CStr (Kategori r)) (CAPE (values r))
                        (K_Index (values r)) (Lifted_Index (values r))
                        (Showalter_Index (values r)))])
              (legend m))
    /\ (dropna ((l, r) :: rows) = (l, r) :: dropna rows ->
        exists e, mapplot ((l, r) :: rows) = Raise e).
Proof.
  intros l [vals k] rows c m Hk. simpl in Hk.
  unfold Stable, WeaklyUnstable, ModeratelyUnstable, StronglyUnstable in Hk.
  assert (String.eqb k "Stabil" = false) as E1
      by (apply String.eqb_neq; intro; subst; tauto).
  assert (String.eqb k "Labil Lemah" = false) as E2
      by (apply String.eqb_neq; intro; subst; tauto).
  assert (String.eqb k "Labil Sedang" = false) as E3
      by (apply String.eqb_neq; intro; subst; tauto).
  assert (String.eqb k "Labil Kuat" = false) as E4
      by (apply String.eqb_neq; intro; subst; tauto).
  assert (forall rows' m', marker_loop ((l, mkKRow vals k) :: rows') None m'
                           = Raise (UnboundLocalError "color")) as G.
  { intros rows' m'. cbn [marker_loop].
    change (kgetitem (mkKRow vals k) "Kategori") with (Ok (CStr k)).
    change (kgetitem (mkKRow vals k) "Lintang") with (Ok (Lintang vals)).
    change (kgetitem (mkKRow vals k) "Bujur") with (Ok (Bujur vals)).
    rewrite !bind_ret, E1, E2, E3, E4. reflexivity. }
  split; [apply G|]. split.
  - cbn [marker_loop].
    change (kgetitem (mkKRow vals k) "Kategori") with (Ok (CStr k)).
    change (kgetitem (mkKRow vals k) "Lintang") with (Ok (Lintang vals)).
    change (kgetitem (mkKRow vals k) "Bujur") with (Ok (Bujur vals)).
    change (kgetitem (mkKRow vals k) "CAPE") with (Ok (CAPE vals)).
    change (kgetitem (mkKRow vals k) "K-Index") with (Ok (K_Index vals)).
    change (kgetitem (mkKRow vals k) "Lifted Index") with (Ok (Lifted_Index vals)).
    change (kgetitem (mkKRow vals k) "Showalter Index")
      with (Ok (Showalter_Index vals)).
    rewrite !bind_ret, E1, E2, E3, E4. reflexivity.
  - intro Hd. unfold mapplot. rewrite Hd.
    destruct (mean _) as [lat|e]; [|simpl; eauto].
    rewrite bind_ret.
    destruct (mean _) as [lon|e]; [|simpl; eauto].
    rewrite bind_ret. cbv zeta. rewrite G. simpl. eauto.
Qed.

Lemma unknown_category_colour_witness :
  marker_loop [(("WIMM", "Medan"), mkKRow nan_row "Netral")] None
    (mkFoliumMap (NaN, NaN) 5 [] [])
  = Raise (UnboundLocalError "color")
  /\ (exists m,
        marker_loop odd_frame None (mkFoliumMap (NaN, NaN) 5 [] []) = Ok m
        /\ map color (markers m) = ["red"; "red"]).
Proof.
  split.
  - apply (unknown_category_colour ("WIMM", "Medan") (mkKRow nan_row "Netral")
             [] "red" (mkFoliumMap (NaN, NaN) 5 [] [])).
    simpl. intuition discriminate.
  - eexists. split; [vm_compute; reflexivity | reflexivity].
Defined.

(** ** Which stations are in the result *)

(** X18. When every station of the mapping is a code of the station table,
    the rows of the result are exactly the located retrieved stations: a
    (code, place name) pair labels a row if and only if it is an item of
    the table, a sounding was retrieved for the code, and the latitude and
    the longitude read for it are both present. *)
Theorem result_rows_exactly_located :
  forall (lib : MetPy) (data : dict Sounding) (stl : dict string)
         (df : StabilityFrame) (key name : string),
    (forall k, In k (dict_keys data) -> exists n, In (k, n) stl) ->
    calculate_stability lib data stl = Ok df ->
    (exists kr, In ((key, name), kr) df)
    <-> In (key, name) stl
        /\ In key (dict_keys data)
        /\ exists lat lon,
             station_latitude data key = Ok lat
             /\ station_longitude data key = Ok lon
             /\ isnan lat = false /\ isnan lon = false.
Proof.
  intros lib data stl df key name Hkeys H. split.
  - intros [kr Hin].
    assert (incl (map fst df) stl) as Hincl.
    { destruct (result_labels_incl lib data stl df Hkeys H) as (dfk & Lk & E).
      subst stl df. intros x Hx. apply in_map_iff in Hx.
      destruct Hx as (y & Ey & Hy). apply filter_In in Hy.
      apply in_map_iff. exists y. tauto. }
    destruct (calculate_stability_rows lib data stl df H _ _ Hin)
      as ((v & Hv & Ev) & _ & Hlat & Hlon).
    simpl in Hv, Ev.
    split; [apply Hincl; apply in_map_iff; exists ((key, name), kr); auto|].
    split; [unfold dict_keys; apply in_map_iff; exists (key, v); auto|].
    apply station_values_latlon in Ev.
    destruct Ev as (lat & lon & Elat & Elon & E1 & E2).
    exists lat, lon. rewrite E1 in Hlat. rewrite E2 in Hlon. auto.
  - intros (Hstl & Hk & lat & lon & Elat & Elon & Hlat & Hlon).
    unfold dict_keys in Hk. apply in_map_iff in Hk.
    destruct Hk as ([k v] & Ek & Hv). simpl in Ek. subst k.
    eapply located_station_in_result; eauto.
Qed.

Lemma result_rows_exactly_located_witness :
  (exists df kr,
      calculate_stability test_lib located_data station_to_location = Ok df
      /\ In (("WIII", "Jakarta"), kr) df)
  /\ In "WIII" (dict_keys located_data).
Proof.
  assert (forall k, In k (dict_keys located_data) ->
                    exists n, In (k, n) station_to_location) as Hkeys.
  { intros k [<-|[<-|[]]]; eexists; unfold station_to_location; simpl; tauto. }
  destruct (calculate_stability test_lib located_data station_to_location)
    as [df|e] eqn:E; [|vm_compute in E; discriminate].
  pose proof (result_rows_exactly_located test_lib located_data
                station_to_location df "WIII" "Jakarta" Hkeys E) as [H1 H2].
  assert (exists kr, In (("WIII", "Jakarta"), kr) df) as [kr Hkr].
  { apply H2. split; [unfold station_to_location; simpl; tauto|].
    split; [left; reflexivity|].
    exists (Fin (-61 # 10)), (Fin (1067 # 10)).
    repeat split; reflexivity. }
  split.
  - exists df, kr. split; [reflexivity | exact Hkr].
  - apply H1. exists kr. exact Hkr.
Defined.

(** ** When a run returns *)

Lemma retrieve_loop_no_dataframe {World : Type}
  (request_data : datetime -> string -> World -> result Sounding * World)
  (date : datetime) (stations : list string) :
  forall (d0 : dict Sounding) (w : World),
    filter is_dataframe (snd (retrieve_loop request_data date stations d0 w))
    = [].
Proof.
  induction stations as [|stn stations IH]; intros d0 w.
  - reflexivity.
  - destruct (request_data date stn w) as [[dfori|e] w1] eqn:E.
    + rewrite (retrieve_loop_fetched _ _ _ _ _ _ _ _ E).
      specialize (IH (dict_set d0 stn dfori) w1).
      destruct (retrieve_loop _ _ _ _ w1) as [[r w2] t]. simpl in *. exact IH.
    + destruct e;
        try (rewrite (retrieve_loop_uncaught _ _ _ _ _ _ _ _ E);
             [reflexivity | discriminate | discriminate]).
      * destruct (retrieve_loop_caught _ _ stn stations d0 w w1 _ E
                    (or_introl eq_refl)) as [msg ->].
        specialize (IH d0 w1).
        destruct (retrieve_loop _ _ _ _ w1) as [[r w2] t]. simpl in *. exact IH.
      * destruct (retrieve_loop_caught _ _ stn stations d0 w w1 _ E
                    (or_intror eq_refl)) as [msg ->].
        specialize (IH d0 w1).
        destruct (retrieve_loop _ _ _ _ w1) as [[r w2] t]. simpl in *. exact IH.
Qed.

(** X19. A run of [main] returns normally exactly when the map checkbox is
    clear and, if data processing is ticked, both the retrieval and
    [calculate_stability] return; the one table it then shows is the frame
    computed from the retrieved mapping. *)
Theorem main_returns_iff :
  forall (World : Type)
         (request_data : datetime -> string -> World -> result Sounding * World)
         (lib : MetPy) (now : datetime) (on dmap : bool) (w : World),
    (fst (fst (main request_data lib now on dmap w)) = Ok tt
     <-> dmap = false
         /\ (on = false
             \/ exists d df,
                  fst (fst (retrieve_data_from_wyoming request_data
                              request_date stations w)) = Ok d
                  /\ calculate_stability lib d station_to_location = Ok df))
    /\ (forall d df,
          fst (fst (retrieve_data_from_wyoming request_data request_date
                      stations w)) = Ok d ->
          calculate_stability lib d station_to_location = Ok df ->
          filter is_dataframe (snd (main request_data lib now true false w))
          = [EvDataframe df]).
Proof.
  intros World request_data lib now on dmap w. split.
  - unfold main.
    unfold mbind, st_title, st_write, st_dataframe, emit, lift, ret, raise.
    destruct on.
    + destruct (retrieve_data_from_wyoming request_data request_date stations w)
        as [[[d|e] w'] t]; simpl.
      * destruct (calculate_stability lib d station_to_location) as [df|e] eqn:Ec;
          simpl.
        -- destruct dmap; simpl.
           ++ destruct (mapplot df); simpl;
                (split; [discriminate | intros [? _]; discriminate]).
           ++ split; [|reflexivity]. intros _. split; [reflexivity|].
              right. exists d, df. auto.
        -- split; [discriminate|].
           intros [_ [?|(d' & df' & E1 & E2)]]; [discriminate|].
           inversion E1; subst d'. congruence.
      * split; [discriminate|].
        intros [_ [?|(d' & df' & E1 & _)]]; discriminate.
    + destruct dmap; simpl; split; try discriminate; auto.
      intros [? _]. discriminate.
  - intros d df E1 E2.
    pose proof (retrieve_loop_no_dataframe request_data request_date stations
                  [] w) as Ht.
    fold (retrieve_data_from_wyoming request_data request_date stations w) in Ht.
    unfold main.
    unfold mbind, st_title, st_write, st_dataframe, emit, lift, ret, raise.
    destruct (retrieve_data_from_wyoming request_data request_date stations w)
      as [[r w'] t].
    simpl in E1, Ht. subst r. simpl. rewrite E2. simpl.
    rewrite !filter_app, Ht. reflexivity.
Qed.

Lemma main_returns_iff_witness :
  fst (fst (main test_archive test_lib (mkdatetime 2023 10 17 6 30 0 0)
              true false 0%nat)) = Ok tt
  /\ exists df,
       filter is_dataframe
         (snd (main test_archive test_lib (mkdatetime 2023 10 17 6 30 0 0)
                 true false 0%nat))
       = [EvDataframe df].
Proof.
  destruct (main_returns_iff nat test_archive test_lib
              (mkdatetime 2023 10 17 6 30 0 0) true false 0%nat) as [H1 H2].
  split.
  - apply H1. split; [reflexivity|]. right.
    eexists. eexists. split; vm_compute; reflexivity.
  - eexists. eapply H2; vm_compute; reflexivity.
Defined.
